(** * SimplePlot: canvas membership, static-mode data ownership and axis limits

    A shallow embedding of [canvas.cpp], of [Series.cpp] and of the [Axis]
    interface of the SimplePlot library, with the properties its
    specification states about them.

    Conventions of the embedding.
    - A [std::vector<PLOT_ID>] is a [list] of identifiers; an iterator is the
      index it points at, so [plots.begin()] is [0] and [plots.end()] is
      [length plots].
    - Reading through an iterator that is out of range is undefined in C++.
      The embedding reads an unspecified identifier there: every operation
      that performs such a read takes that identifier as its argument [oob],
      and the theorems quantify over it.
    - A loop that need not terminate is given fuel; [None] means that the fuel
      ran out.  [search_None_diverges] shows that with enough fuel [None]
      is real divergence.
    - A [throw std::logic_error] is the constructor [LogicError] of [result];
      a state-changing method returns the state it leaves behind together
      with its [result].
    - The sample type is [int] ([Series<int, int>]).  The [float] values
      stored into the axis limits are the integers themselves: the
      conversion is exact below [2^24] in magnitude. *)

From Stdlib Require Import ZArith Sorted Lia.
From stdpp Require Import base decidable option list gmap.

(** ** Identifiers and enumerations *)

Abbreviation PLOT_ID := Z (only parsing).
Abbreviation CANVAS_ID := Z (only parsing).
Abbreviation HWND := Z (only parsing).

(** [AXIS_TYPE] is declared in a header that is not part of the sources at
    hand; [canvas.cpp] names its enumerators [CART_2D] and [SPECIAL].
    [AXIS_OTHER] stands for any further enumerator. *)
Inductive AXIS_TYPE : Type :=
  | CART_2D
  | SPECIAL
  | AXIS_OTHER (n : nat).

#[global] Instance AXIS_TYPE_eq_dec : EqDecision AXIS_TYPE.
Proof. solve_decision. Defined.

(** The four [std::logic_error]s of [canvas.cpp], in the order of the file:
    - [SpecialNotAlone]: Plots with axis type special cannot be in the same
      canvas as other plots.
    - [AxisTypeMismatch]: All plots within a canvas must have the same axis
      type.
    - [BinaryInsertFailed]: Binary insert failed.
    - [AxisTypeUnimplemented]: Axis types other than cart 2d are
      unimplemented. *)
Inductive logic_error : Type :=
  | SpecialNotAlone
  | AxisTypeMismatch
  | BinaryInsertFailed
  | AxisTypeUnimplemented.

Inductive result (A : Type) : Type :=
  | Ok (a : A)
  | LogicError (what : logic_error).
Arguments Ok {A} a.
Arguments LogicError {A} what.

Record POINT : Type := mkPOINT { px : Z; py : Z }.

(** ** Axis *)

(** The fields of [class Axis] that carry the range and the tick spacing.
    [recomputed] is a ghost counter: the number of calls of the private
    [setMajorMinor] so far. *)
Record Axis : Type := mkAxis {
  logarithmic : bool;
  fixEnds : bool;
  maxT : Z;
  minT : Z;
  major : Z;
  minor : Z;
  recomputed : nat
}.

(** ** Canvas *)

Record Canvas : Type := mkCanvas {
  id : CANVAS_ID;
  plots : list PLOT_ID;
  axisType : option AXIS_TYPE;   (* [None]: not assigned yet *)
  axisLimits : list Z;           (* float[4]: minX, maxX, minY, maxY *)
  drawSpace : list POINT;        (* POINT[4] *)
  axes : list Axis;              (* Axis[2] *)
  framerate : Z;
  hwnd : HWND;
  killed : bool
}.

Definition set_plots (c : Canvas) (l : list PLOT_ID) : Canvas :=
  mkCanvas (id c) l (axisType c) (axisLimits c) (drawSpace c) (axes c)
           (framerate c) (hwnd c) (killed c).

Definition set_axisType (c : Canvas) (a : AXIS_TYPE) : Canvas :=
  mkCanvas (id c) (plots c) (Some a) (axisLimits c) (drawSpace c) (axes c)
           (framerate c) (hwnd c) (killed c).

Definition set_buffers (c : Canvas) (lim : list Z) (ds : list POINT)
    (ax : list Axis) : Canvas :=
  mkCanvas (id c) (plots c) (axisType c) lim ds ax
           (framerate c) (hwnd c) (killed c).

Definition set_framerate (c : Canvas) (f : Z) : Canvas :=
  mkCanvas (id c) (plots c) (axisType c) (axisLimits c) (drawSpace c) (axes c)
           f (hwnd c) (killed c).

Definition set_killed (c : Canvas) (k : bool) : Canvas :=
  mkCanvas (id c) (plots c) (axisType c) (axisLimits c) (drawSpace c) (axes c)
           (framerate c) (hwnd c) k.

Definition set_hwnd (c : Canvas) (h : HWND) : Canvas :=
  mkCanvas (id c) (plots c) (axisType c) (axisLimits c) (drawSpace c) (axes c)
           (framerate c) h (killed c).

(** ** Plot data: the free store and the series *)

(** A block of the free store: the samples it holds, or the mark that it
    was released by [delete[]]. *)
Inductive block : Type :=
  | Live (vals : list Z)
  | Freed.

(** What C++ leaves undefined in the code below *)
Inductive fault : Type :=
  | UseAfterFree     (* read through a pointer to a released block *)
  | InvalidFree      (* [delete[]] of a block that is not live *)
  | WildPointer      (* read through a pointer to no block *)
  | OutOfBounds      (* read past the end of a block *)
  | NoSuchPlot.      (* identifier unknown to the plot registry *)

Inductive mem (A : Type) : Type :=
  | Done (a : A)
  | Fault (f : fault).
Arguments Done {A} a.
Arguments Fault {A} f.

#[global] Instance mem_ret : MRet mem := λ A a, Done a.
#[global] Instance mem_bind : MBind mem := λ A B k m,
  match m with
  | Done a => k a
  | Fault f => Fault f
  end.

(** [Series<int, int>]: the members that [Series.cpp] uses *)
Record Series : Type := mkSeries {
  skip : Z;
  data : nat;        (* Y* data: the address of a block *)
  sizeData : Z
}.

(** The plot objects of the registry and the free store *)
Record World : Type := mkWorld {
  plotMap : gmap Z Series;
  heap : gmap nat block
}.

(** ** The tables shared with the window procedure *)

(** The tables of [wndProc.h] that [canvas.cpp] uses, and the bitmaps that
    the window system still holds. *)
Record Globals : Type := mkGlobals {
  hwndToBitmap : gmap Z Z;
  terminateCanvas : gmap Z bool;
  bitmaps : gset Z
}.

(** The tables of [namespace Maps]: the window of each canvas, the keys of
    the per-canvas mutexes, and the address of each canvas object. *)
Record Maps : Type := mkMaps {
  canvasHWNDMap : gmap Z Z;
  canvasMutexMap : gset Z;
  canvasPointerMap : gmap Z Z
}.

(** How an iteration of the render loop ends *)
Inductive loop_status : Type :=
  | Break
  | Continue.

(** An operation of a caller on the membership list.  [AddPlot] carries the
    identifier that the read of [*plots.end()] yields in that call. *)
Inductive op : Type :=
  | AddPlot (plotID : PLOT_ID) (oob : PLOT_ID)
  | RemovePlot (plotID : PLOT_ID).

Section SimplePlot.

(** The plot registry of [plots/plot.h] is not part of the sources at hand.
    The two queries that [canvas.cpp] makes are parameters; [getPlotType]
    is the enumerator of [PLOT_TYPE] already cast to [int]. *)
Variable getPlotType : PLOT_ID → Z.
Variable getPlotAxisType : PLOT_ID → AXIS_TYPE.

(** The contents of a freshly allocated [float], [POINT] or [Axis]. *)
Variable fresh_float : Z.
Variable fresh_POINT : POINT.
Variable fresh_Axis : Axis.

(** The default member initialiser of [framerate] in [canvas.h]. *)
Variable default_framerate : Z.

(** [Canvas::setAxisType]; both callers assign [axisType] first, so the
    [switch] never reads the member unassigned. *)
Definition setAxisType (c : Canvas) : result Canvas :=
  match axisType c with
  | Some CART_2D =>
      Ok (set_buffers c (replicate 4 fresh_float) (replicate 4 fresh_POINT)
                      (replicate 2 fresh_Axis))
  | _ => LogicError AxisTypeUnimplemented
  end.

(** [*it] for the iterator at index [i], and [a[i]] for an array: the
    element when [i] is in range, the unspecified [oob] otherwise *)
Definition deref {A : Type} (oob : A) (l : list A) (i : nat) : A :=
  default oob (l !! i).

(** The [while] loop of [Canvas::addPlot]; the result is the final
    [begin] and [beginOrder].  [std::distance(begin, end)] is [end_ - begin]:
    the loop never moves [begin] past [end_] ([middle_bounds]). *)
Fixpoint search (fuel : nat) (oob : PLOT_ID) (l : list PLOT_ID)
    (thisOrder : Z) (begin end_ : nat) (beginOrder endOrder : Z)
    : option (nat * Z) :=
  if decide (beginOrder ≠ endOrder) then
    match fuel with
    | O => None
    | S fuel' =>
        let middle := begin + (end_ - begin) / 2 in
        let middleOrder := getPlotType (deref oob l middle) in
        if decide (middleOrder > thisOrder)%Z then
          search fuel' oob l thisOrder middle end_ middleOrder endOrder
        else
          search fuel' oob l thisOrder begin middle beginOrder middleOrder
    end
  else Some (begin, beginOrder).

(** [plots.insert(it, x)] for the iterator at index [i] *)
Definition vector_insert (l : list PLOT_ID) (i : nat) (x : PLOT_ID)
    : list PLOT_ID :=
  take i l ++ x :: drop i l.

(** [Canvas::addPlot] *)
Definition addPlot (fuel : nat) (oob : PLOT_ID) (c : Canvas)
    (plotID : PLOT_ID) : option (Canvas * result unit) :=
  if decide (length (plots c) = 0) then
    let c1 := set_plots c (plots c ++ [plotID]) in
    let c2 := set_axisType c1 (getPlotAxisType plotID) in
    match setAxisType c2 with
    | Ok c3 => Some (c3, Ok tt)
    | LogicError e => Some (c2, LogicError e)
    end
  else
    let thisOrder := getPlotType plotID in
    let begin := 0 in
    let end_ := length (plots c) in
    let beginOrder := getPlotType (deref oob (plots c) begin) in
    let endOrder := getPlotType (deref oob (plots c) end_) in
    match search fuel oob (plots c) thisOrder begin end_
                 beginOrder endOrder with
    | None => None
    | Some (begin, beginOrder) =>
        if decide (beginOrder ≠ thisOrder) then
          Some (c, LogicError BinaryInsertFailed)
        else
          Some (set_plots c (vector_insert (plots c) begin plotID), Ok tt)
    end.

(** [Canvas::removePlot]: [std::find], then [erase] *)
Definition removePlot (c : Canvas) (plotID : PLOT_ID) : Canvas :=
  match list_find (λ x, x = plotID) (plots c) with
  | None => c
  | Some (it, _) => set_plots c (delete it (plots c))
  end.

(** [Canvas::isEmpty] *)
Definition isEmpty (c : Canvas) : bool :=
  bool_decide (length (plots c) = 0).

(** The object before the body of the constructor runs: the vector is
    empty, [killed] is false. *)
Definition blank (maxID : CANVAS_ID) : Canvas :=
  mkCanvas maxID [] None [] [] [] default_framerate 0 false.

(** The [for] loop of the constructor; [i] counts the calls of [addPlot],
    and [oob i] is what the [i]-th call reads at [plots.end()]. *)
Fixpoint Canvas_loop (fuel : nat) (oob : nat → PLOT_ID) (i : nat)
    (c : Canvas) (ids : list PLOT_ID) : option (result Canvas) :=
  match ids with
  | [] => Some (Ok c)
  | plotID :: rest =>
      if decide (axisType c ≠ Some (getPlotAxisType plotID)) then
        Some (LogicError AxisTypeMismatch)
      else
        match addPlot fuel (oob i) c plotID with
        | None => None
        | Some (_, LogicError e) => Some (LogicError e)
        | Some (c', Ok _) => Canvas_loop fuel oob (S i) c' rest
        end
  end.

(** [Canvas::Canvas], up to the choice of the style and of the brush *)
Definition Canvas_new (fuel : nat) (oob : nat → PLOT_ID)
    (maxID : CANVAS_ID) (plots_ : list PLOT_ID) : option (result Canvas) :=
  let c := blank maxID in
  match plots_ with
  | [] => Some (Ok c)
  | first :: _ =>
      let c := set_axisType c (getPlotAxisType first) in
      if decide (1 < length plots_ ∧ axisType c = Some SPECIAL) then
        Some (LogicError SpecialNotAlone)
      else
        match Canvas_loop fuel oob 0 c plots_ with
        | Some (Ok c) =>
            match setAxisType c with
            | Ok c => Some (Ok c)
            | LogicError e => Some (LogicError e)
            end
        | r => r
        end
  end.

(** One operation; a [LogicError] leaves the caller with the canvas as the
    throwing call left it. *)
Definition apply_op (fuel : nat) (c : Canvas) (o : op) : option Canvas :=
  match o with
  | AddPlot plotID oob => fst <$> addPlot fuel oob c plotID
  | RemovePlot plotID => Some (removePlot c plotID)
  end.

(** The canvases after each operation of a sequence, up to the first
    operation that runs out of fuel. *)
Fixpoint run (fuel : nat) (c : Canvas) (ops : list op) : list Canvas :=
  match ops with
  | [] => []
  | o :: rest =>
      match apply_op fuel c o with
      | None => []
      | Some c' => c' :: run fuel c' rest
      end
  end.

(** Sorted from greatest to least plot type *)
Definition sorted_plots (l : list PLOT_ID) : Prop :=
  StronglySorted (λ x y, (getPlotType x >= getPlotType y)%Z) l.

(** All the plots of the list have one and the same plot type. *)
Definition one_plot_type (l : list PLOT_ID) : Prop :=
  ∃ t, Forall (λ p, getPlotType p = t) l.

(** ** Plot data *)

(** The first [n] samples behind the pointer [p] *)
Definition load (h : gmap nat block) (p : nat) (n : Z) : mem (list Z) :=
  match h !! p with
  | Some (Live vals) =>
      if decide (n ≤ Z.of_nat (length vals))%Z
      then Done (take (Z.to_nat n) vals)
      else Fault OutOfBounds
  | Some Freed => Fault UseAfterFree
  | None => Fault WildPointer
  end.

(** Modelled from the spec: [Stats::minValue] of [stats.h], which is not
    part of the sources at hand; the least of the samples ([0] when there
    is none). *)
Definition minValue (vals : list Z) : Z :=
  match vals with
  | [] => 0%Z
  | v :: rest => foldl Z.min v rest
  end.

(** Modelled from the spec: [Stats::maxValue] of [stats.h], which is not
    part of the sources at hand; the greatest of the samples. *)
Definition maxValue (vals : list Z) : Z :=
  match vals with
  | [] => 0%Z
  | v :: rest => foldl Z.max v rest
  end.

(** [Series::getAxisLimits] *)
Definition Series_getAxisLimits (s : Series) (h : gmap nat block)
    (axisLimits : list Z) : mem (list Z) :=
  vals ← load h (data s) (sizeData s);
  let axisLimits := <[0 := 0%Z]> axisLimits in
  let axisLimits := <[1 := ((sizeData s - 1) * skip s)%Z]> axisLimits in
  let axisLimits := <[2 := minValue vals]> axisLimits in
  let axisLimits := <[3 := maxValue vals]> axisLimits in
  mret axisLimits.

(** [Series::draw]: the samples are read, the lines go to the device
    context *)
Definition Series_draw (s : Series) (h : gmap nat block) : mem unit :=
  _ ← load h (data s) (sizeData s); mret tt.

(** [Series::isolateData] *)
Definition Series_isolateData (s : Series) (h : gmap nat block)
    : mem (Series * gmap nat block) :=
  vals ← load h (data s) (sizeData s);
  let newData := fresh (dom h) in
  let h := <[newData := Live vals]> h in
  mret (mkSeries (skip s) newData (sizeData s), h).

(** [Series::deleteData] *)
Definition Series_deleteData (s : Series) (h : gmap nat block)
    : mem (Series * gmap nat block) :=
  match h !! data s with
  | Some (Live _) => mret (s, <[data s := Freed]> h)
  | _ => Fault InvalidFree
  end.

(** Modelled from the spec: [getPlotAxisLimits], [drawPlot],
    [isolatePlotData] and [deletePlotData] of the plot registry, which is
    not part of the sources at hand; each looks the plot object up and
    calls the method of that name. *)
Definition getPlotAxisLimits (w : World) (plotID : PLOT_ID)
    (axisLimits : list Z) : mem (list Z) :=
  match plotMap w !! plotID with
  | Some s => Series_getAxisLimits s (heap w) axisLimits
  | None => Fault NoSuchPlot
  end.

Definition drawPlot (w : World) (plotID : PLOT_ID) : mem unit :=
  match plotMap w !! plotID with
  | Some s => Series_draw s (heap w)
  | None => Fault NoSuchPlot
  end.

Definition isolatePlotData (w : World) (plotID : PLOT_ID) : mem World :=
  match plotMap w !! plotID with
  | Some s =>
      '(s', h') ← Series_isolateData s (heap w);
      mret (mkWorld (<[plotID := s']> (plotMap w)) h')
  | None => Fault NoSuchPlot
  end.

Definition deletePlotData (w : World) (plotID : PLOT_ID) : mem World :=
  match plotMap w !! plotID with
  | Some s =>
      '(s', h') ← Series_deleteData s (heap w);
      mret (mkWorld (<[plotID := s']> (plotMap w)) h')
  | None => Fault NoSuchPlot
  end.

(** [for (PLOT_ID id : plots) body(id);] over a state [S] *)
Fixpoint for_each {S : Type} (body : S → PLOT_ID → mem S) (s : S)
    (ids : list PLOT_ID) : mem S :=
  match ids with
  | [] => mret s
  | plotID :: rest => s' ← body s plotID; for_each body s' rest
  end.

(** What a paint pass reads of a plot: its skip, its size, and the samples
    behind its data pointer. *)
Definition plot_view (w : World) (plotID : PLOT_ID)
    : option (Z * Z * mem (list Z)) :=
  s ← plotMap w !! plotID;
  Some (skip s, sizeData s, load (heap w) (data s) (sizeData s)).

(** ** Static mode *)

(** [SP_STATIC] and [SP_BORDER_WIDTH] are macros of a header that is not
    part of the sources at hand. *)
Variable SP_STATIC : Z.
Variable SP_BORDER_WIDTH : Z.

(** [Canvas::setFramerate] *)
Definition setFramerate (c : Canvas) (w : World) (framerate_ : Z)
    : mem (Canvas * World) :=
  w ← (if decide (framerate_ = SP_STATIC ∧ framerate c ≠ SP_STATIC)
       then for_each isolatePlotData w (plots c) else mret w);
  w ← (if decide (framerate_ ≠ SP_STATIC ∧ framerate c = SP_STATIC)
       then for_each deletePlotData w (plots c) else mret w);
  mret (set_framerate c framerate_, w).

(** ** Axis ranges and the paint pass *)

(** The bodies of the methods of [Axis] are not part of the sources at
    hand; the class declaration is.  [tick_spacing] stands for the
    computation of the major and minor intervals from the flag and the
    range, [getClearance] for [Axis::getClearance]. *)
Variable tick_spacing : bool → Z → Z → Z * Z.
Variable getClearance : Axis → Z.

(** Modelled from the spec: the private [Axis::setMajorMinor], declared in
    the class and defined elsewhere; it recomputes the major and minor tick
    intervals of the current range. *)
Definition setMajorMinor (a : Axis) : Axis :=
  let '(major_, minor_) := tick_spacing (logarithmic a) (minT a) (maxT a) in
  mkAxis (logarithmic a) (fixEnds a) (maxT a) (minT a) major_ minor_
         (S (recomputed a)).

(** Modelled from the spec: [Axis::setEnds], declared in the class and
    defined elsewhere; it recomputes the tick spacing only if the range
    changed, and returns whether it did. *)
Definition setEnds (a : Axis) (minT_ maxT_ : Z) : Axis * bool :=
  if decide (minT a = minT_ ∧ maxT a = maxT_) then (a, false)
  else
    (setMajorMinor (mkAxis (logarithmic a) (fixEnds a) maxT_ minT_
                           (major a) (minor a) (recomputed a)), true).

(** [Canvas::draw]; [size] is what [getSize()] reads from the window.  The
    calls of [drawGrid] and [drawAxis] only write to the device context. *)
Definition draw (c : Canvas) (w : World) (size : POINT) : mem Canvas :=
  axisLimits ← for_each (λ lim plotID, getPlotAxisLimits w plotID lim)
                        (axisLimits c) (plots c);
  let axes0 := fst (setEnds (deref fresh_Axis (axes c) 0)
                            (deref fresh_float axisLimits 0)
                            (deref fresh_float axisLimits 1)) in
  let axes1 := fst (setEnds (deref fresh_Axis (axes c) 1)
                            (deref fresh_float axisLimits 2)
                            (deref fresh_float axisLimits 3)) in
  let clearanceHoriz := getClearance axes0 in
  let clearanceVert := getClearance axes1 in
  let drawSpace :=
    <[0 := mkPOINT clearanceVert (py size - clearanceHoriz)]> (drawSpace c) in
  let drawSpace :=
    <[1 := mkPOINT (px size - SP_BORDER_WIDTH) (py size - clearanceHoriz)]>
      drawSpace in
  let drawSpace := <[2 := mkPOINT clearanceVert SP_BORDER_WIDTH]> drawSpace in
  let drawSpace :=
    <[3 := mkPOINT (px size - SP_BORDER_WIDTH) SP_BORDER_WIDTH]> drawSpace in
  _ ← for_each (λ _ plotID, drawPlot w plotID) tt (plots c);
  mret (set_buffers c axisLimits drawSpace
                    (<[1 := axes1]> (<[0 := axes0]> (axes c)))).

(** ** Termination of the render loop *)

(** [Canvas::kill]; [operator[]] of a [std::map] yields the null handle for
    a key it does not hold. *)
Definition kill (c : Canvas) (w : World) (g : Globals)
    : mem (Canvas * World * Globals) :=
  if killed c then mret (c, w, g)
  else
    let bitmap := default 0%Z (hwndToBitmap g !! hwnd c) in
    let g := mkGlobals (<[hwnd c := bitmap]> (hwndToBitmap g))
                       (<[hwnd c := true]> (terminateCanvas g))
                       (bitmaps g ∖ {[bitmap]}) in
    w ← (if decide (framerate c = SP_STATIC)
         then for_each deletePlotData w (plots c) else mret w);
    mret (set_killed c true, w, g).

(** The test at the head of the loop of [Canvas::launch] *)
Definition killNow (c : Canvas) (g : Globals) : bool :=
  match terminateCanvas g !! hwnd c with
  | None => true
  | Some flag => flag
  end.

(** One iteration of the loop of [Canvas::launch], without the message
    pump and the sleep; [paint] is [draw] between the calls that obtain and
    release the device context. *)
Definition launch_step (c : Canvas) (w : World) (g : Globals) (size : POINT)
    : mem (loop_status * (Canvas * World * Globals)) :=
  if killNow c g then
    s ← kill c w g; mret (Break, s)
  else
    c ← draw c w size; mret (Continue, (c, w, g)).


(** ** Registration and termination requests *)

(** [Canvas::createBitmap]; [bitmap] is the handle that
    [CreateCompatibleBitmap] returns. *)
Definition createBitmap (c : Canvas) (bitmap : Z) (g : Globals) : Globals :=
  mkGlobals (<[hwnd c := bitmap]> (hwndToBitmap g))
            (<[hwnd c := false]> (terminateCanvas g))
            ({[bitmap]} ∪ bitmaps g).

(** [Canvas::initWindow], without the calls that only reach the window
    system; [created] is the handle that [CreateWindow] returns, [this_] the
    address of the canvas object. *)
Definition initWindow (c : Canvas) (this_ : Z) (created : HWND) (bitmap : Z)
    (m : Maps) (g : Globals) : Canvas * Maps * Globals :=
  let c := set_hwnd c created in
  let g := createBitmap c bitmap g in
  let m := mkMaps (<[id c := hwnd c]> (canvasHWNDMap m))
                  ({[id c]} ∪ canvasMutexMap m)
                  (<[id c := this_]> (canvasPointerMap m)) in
  (c, m, g).

(** [deleteCanvas]; [None] is the [std::out_of_range] of [std::map::at]. *)
Definition deleteCanvas (m : Maps) (g : Globals) (canvasID : CANVAS_ID)
    : option Globals :=
  h ← canvasHWNDMap m !! canvasID;
  _ ← terminateCanvas g !! h;
  Some (mkGlobals (hwndToBitmap g) (<[h := true]> (terminateCanvas g))
                  (bitmaps g)).

(** ** The membership list stays sorted *)

Lemma middle_bounds (begin end_ : nat) :
  begin < end_ →
  begin ≤ begin + (end_ - begin) / 2 < end_.
Proof using Type.
  intros Hlt. pose proof (Nat.Div0.mul_div_le (end_ - begin) 2). lia.
Qed.

Lemma vector_insert_sorted (l : list PLOT_ID) (i : nat) (x y : PLOT_ID) :
  sorted_plots l → l !! i = Some y → getPlotType y = getPlotType x →
  sorted_plots (vector_insert l i x).
Proof using Type.
  unfold sorted_plots, vector_insert. intros Hs. revert i.
  induction Hs as [|a l Hs IH Ha]; intros i Hi Hxy.
  - by rewrite lookup_nil in Hi.
  - destruct i as [|i]; simpl in *.
    + injection Hi as ->. constructor; [by constructor|].
      constructor; [lia|].
      eapply Forall_impl; [exact Ha|]. simpl. intros z Hz. lia.
    + constructor; [by apply IH|].
      apply Forall_app. split; [by apply Forall_take|].
      constructor; [|by apply Forall_drop].
      pose proof (Forall_lookup_1 _ _ _ _ Ha Hi) as Hay. simpl in Hay. lia.
Qed.

Lemma delete_sorted (l : list PLOT_ID) (i : nat) :
  sorted_plots l → sorted_plots (delete i l).
Proof using Type.
  unfold sorted_plots. intros Hs. revert i.
  induction Hs as [|a l Hs IH Ha]; intros i; [destruct i; simpl; constructor|].
  destruct i as [|i]; simpl; [done|].
  constructor; [apply IH|by apply Forall_delete].
Qed.

(** One iteration of the loop *)
Lemma search_S (fuel : nat) (oob : PLOT_ID) (l : list PLOT_ID)
    (thisOrder : Z) (begin end_ : nat) (beginOrder endOrder : Z) :
  beginOrder ≠ endOrder →
  search (S fuel) oob l thisOrder begin end_ beginOrder endOrder =
    let middle := begin + (end_ - begin) / 2 in
    let middleOrder := getPlotType (deref oob l middle) in
    if decide (middleOrder > thisOrder)%Z then
      search fuel oob l thisOrder middle end_ middleOrder endOrder
    else
      search fuel oob l thisOrder begin middle beginOrder middleOrder.
Proof using Type.
  intros Hne. cbn [search]. destruct (decide (beginOrder ≠ endOrder)); done.
Qed.

Lemma search_exit (fuel : nat) (oob : PLOT_ID) (l : list PLOT_ID)
    (thisOrder : Z) (begin end_ : nat) (order : Z) :
  search fuel oob l thisOrder begin end_ order order = Some (begin, order).
Proof using Type.
  destruct fuel; cbn [search]; destruct (decide (order ≠ order)); done.
Qed.

Lemma search_O (oob : PLOT_ID) (l : list PLOT_ID)
    (thisOrder : Z) (begin end_ : nat) (beginOrder endOrder : Z) :
  beginOrder ≠ endOrder →
  search 0 oob l thisOrder begin end_ beginOrder endOrder = None.
Proof using Type.
  intros Hne. cbn [search]. destruct (decide (beginOrder ≠ endOrder)); done.
Qed.

(** The loop keeps [begin] inside the vector and [beginOrder] equal to the
    plot type of the element at [begin]. *)
Lemma search_found (fuel : nat) (oob : PLOT_ID) (l : list PLOT_ID)
    (thisOrder : Z) (begin end_ : nat) (beginOrder endOrder : Z)
    (begin' : nat) (beginOrder' : Z) :
  search fuel oob l thisOrder begin end_ beginOrder endOrder
    = Some (begin', beginOrder') →
  begin < length l → end_ ≤ length l →
  beginOrder = getPlotType (deref oob l begin) →
  begin < end_ ∨ beginOrder = endOrder →
  begin' < length l ∧ beginOrder' = getPlotType (deref oob l begin').
Proof using Type.
  revert begin end_ beginOrder endOrder.
  induction fuel as [|fuel IH]; intros b e bo eo Hs Hb He Hbo Hor;
    (destruct (decide (bo = eo)) as [<-|Hne];
     [rewrite search_exit in Hs; injection Hs as <- <-; done|]).
  { by rewrite search_O in Hs. }
  rewrite search_S in Hs by done. cbv zeta in Hs.
  assert (b < e) as Hlt by (destruct Hor; [done|contradiction]).
  pose proof (middle_bounds b e Hlt) as Hm.
  destruct (decide (_ > _)%Z) as [Hgt|Hle].
  - eapply IH; [exact Hs|lia|lia|done|left; lia].
  - eapply IH; [exact Hs|lia|lia|done|].
    destruct (decide (b = b + (e - b) / 2)) as [Hbm|Hbm].
    + right. rewrite <- Hbm. done.
    + left. lia.
Qed.

Lemma addPlot_sorted (fuel : nat) (oob : PLOT_ID) (c c' : Canvas)
    (plotID : PLOT_ID) (r : result unit) :
  sorted_plots (plots c) → addPlot fuel oob c plotID = Some (c', r) →
  sorted_plots (plots c').
Proof using Type.
  intros Hs. unfold addPlot.
  destruct (decide (length (plots c) = 0)) as [Hlen|Hlen].
  - apply length_zero_iff_nil in Hlen.
    assert (sorted_plots ([] ++ [plotID])) as Hone
      by (constructor; constructor).
    unfold setAxisType; simpl.
    destruct (getPlotAxisType plotID); intros [= <- <-]; simpl;
      by rewrite Hlen.
  - destruct (search _ _ _ _ _ _ _ _) as [[b bo]|] eqn:Hsearch; [|done].
    apply search_found in Hsearch as [Hb Hbo]; [|lia|lia|done|left; lia].
    destruct (decide (bo ≠ getPlotType plotID)) as [Hne|Heq];
      intros [= <- <-]; [done|]. simpl.
    apply dec_stable in Heq.
    destruct (lookup_lt_is_Some_2 _ _ Hb) as [y Hy].
    apply vector_insert_sorted with y; [done|done|].
    unfold deref in Hbo. rewrite Hy in Hbo. simpl in Hbo. congruence.
Qed.

Lemma removePlot_sorted (c : Canvas) (plotID : PLOT_ID) :
  sorted_plots (plots c) → sorted_plots (plots (removePlot c plotID)).
Proof using Type.
  intros Hs. unfold removePlot.
  destruct (list_find _ _) as [[it x]|]; [|done]. simpl.
  by apply delete_sorted.
Qed.

(** C1.  For every canvas whose member-plot sequence is sorted from the
    greatest plot type to the least (the empty sequence of a new canvas is)
    and every sequence of [addPlot] and [removePlot] calls on it, the
    member-plot sequence is sorted again after each call, whatever the
    call reads past the end of the vector and whether it returns or
    throws. *)
Theorem run_sorted (fuel : nat) (c : Canvas) (ops : list op) :
  sorted_plots (plots c) →
  Forall (λ c', sorted_plots (plots c')) (run fuel c ops).
Proof using Type.
  revert c. induction ops as [|o ops IH]; intros c Hs; simpl; [constructor|].
  destruct (apply_op fuel c o) as [c'|] eqn:Hop; [|constructor].
  assert (sorted_plots (plots c')) as Hs'.
  { destruct o as [plotID oob|plotID]; simpl in Hop.
    - destruct (addPlot fuel oob c plotID) as [[c1 r]|] eqn:Hadd;
        [|discriminate].
      injection Hop as <-. by eapply addPlot_sorted.
    - injection Hop as <-. by apply removePlot_sorted. }
  constructor; [done|by apply IH].
Qed.


(** The constructor only fills the list through [addPlot]. *)
Lemma Canvas_loop_sorted (fuel : nat) (oob : nat → PLOT_ID) (i : nat)
    (c c' : Canvas) (ids : list PLOT_ID) :
  sorted_plots (plots c) →
  Canvas_loop fuel oob i c ids = Some (Ok c') →
  sorted_plots (plots c').
Proof using Type.
  revert i c. induction ids as [|plotID rest IH]; intros i c Hs; simpl.
  - intros [= <-]. done.
  - destruct (decide (_ ≠ _)) as [_|_]; [done|].
    destruct (addPlot fuel (oob i) c plotID) as [[c1 [[]|e]]|] eqn:Hadd;
      [|done|done].
    apply IH. by eapply addPlot_sorted.
Qed.

Lemma Canvas_new_sorted (fuel : nat) (oob : nat → PLOT_ID)
    (maxID : CANVAS_ID) (plots_ : list PLOT_ID) (c : Canvas) :
  Canvas_new fuel oob maxID plots_ = Some (Ok c) → sorted_plots (plots c).
Proof using Type.
  unfold Canvas_new. destruct plots_ as [|first rest].
  - intros [= <-]. constructor.
  - destruct (decide (_ ∧ _)) as [_|_]; [done|].
    destruct (Canvas_loop _ _ _ _ _) as [[c1|e]|] eqn:Hloop; [|done|done].
    apply Canvas_loop_sorted in Hloop; [|constructor].
    unfold setAxisType. destruct (axisType c1) as [[| |]|]; try done.
    intros [= <-]. done.
Qed.

(** ** Termination of the search *)

(** A state from which the loop does not move: [middle] is [begin] and the
    element there has a greater plot type than the inserted plot. *)
Lemma search_stuck (fuel : nat) (oob : PLOT_ID) (l : list PLOT_ID)
    (thisOrder : Z) (begin end_ : nat) (beginOrder endOrder : Z) :
  beginOrder ≠ endOrder →
  begin + (end_ - begin) / 2 = begin →
  beginOrder = getPlotType (deref oob l begin) →
  (beginOrder > thisOrder)%Z →
  search fuel oob l thisOrder begin end_ beginOrder endOrder = None.
Proof using Type.
  intros Hne Hm Hbo Hgt. induction fuel as [|fuel IH]; [by apply search_O|].
  rewrite search_S by done. cbv zeta. rewrite Hm, <- Hbo.
  destruct (decide (beginOrder > thisOrder)%Z); done.
Qed.

(** With more fuel than the distance between the iterators, running out of
    fuel is divergence. *)
Lemma search_None_diverges (fuel : nat) (oob : PLOT_ID) (l : list PLOT_ID)
    (thisOrder : Z) (begin end_ : nat) (beginOrder endOrder : Z) :
  end_ - begin < fuel → begin < end_ →
  beginOrder = getPlotType (deref oob l begin) →
  search fuel oob l thisOrder begin end_ beginOrder endOrder = None →
  ∀ fuel', search fuel' oob l thisOrder begin end_ beginOrder endOrder = None.
Proof using Type.
  revert begin end_ beginOrder endOrder.
  induction fuel as [|fuel IH]; intros b e bo eo Hfuel Hlt Hbo Hs; [lia|].
  destruct (decide (bo = eo)) as [<-|Hne];
    [by rewrite search_exit in Hs|].
  rewrite search_S in Hs by done. cbv zeta in Hs.
  pose proof (middle_bounds b e Hlt) as Hm.
  destruct (decide (b + (e - b) / 2 = b)) as [Hmb|Hmb].
  - rewrite Hmb, <- Hbo in Hs.
    destruct (decide (bo > thisOrder)%Z) as [Hgt|Hle].
    + intros fuel'. by apply search_stuck.
    + by rewrite search_exit in Hs.
  - assert (∀ fuel',
      (if decide (getPlotType (deref oob l (b + (e - b) / 2)) > thisOrder)%Z
       then search fuel' oob l thisOrder (b + (e - b) / 2) e
              (getPlotType (deref oob l (b + (e - b) / 2))) eo
       else search fuel' oob l thisOrder b (b + (e - b) / 2) bo
              (getPlotType (deref oob l (b + (e - b) / 2)))) = None) as Hall.
    { destruct (decide (_ > _)%Z); intros fuel';
        (eapply IH; [| | |exact Hs]; [lia|lia|done]). }
    intros [|fuel']; [by apply search_O|].
    rewrite search_S by done. apply Hall.
Qed.

(** On a vector whose plots all have the plot type of the inserted plot,
    one iteration is enough and the plot goes to the front. *)
Lemma addPlot_homogeneous (fuel : nat) (oob : PLOT_ID) (c : Canvas)
    (plotID : PLOT_ID) :
  1 ≤ fuel → plots c ≠ [] →
  Forall (λ p, getPlotType p = getPlotType plotID) (plots c) →
  addPlot fuel oob c plotID
    = Some (set_plots c (plotID :: plots c), Ok tt).
Proof using Type.
  intros Hfuel Hne Hall. unfold addPlot.
  assert (0 < length (plots c)) as Hlen
    by (destruct (plots c); [done|simpl; lia]).
  destruct (decide (length (plots c) = 0)) as [?|_]; [lia|].
  assert (∀ i, i < length (plots c) →
    getPlotType (deref oob (plots c) i) = getPlotType plotID) as Hin.
  { intros i Hi. destruct (lookup_lt_is_Some_2 _ _ Hi) as [y Hy].
    unfold deref. rewrite Hy. simpl.
    exact (Forall_lookup_1 _ _ _ _ Hall Hy). }
  cbv zeta. rewrite (Hin 0 Hlen).
  assert (search fuel oob (plots c) (getPlotType plotID) 0 (length (plots c))
            (getPlotType plotID)
            (getPlotType (deref oob (plots c) (length (plots c))))
          = Some (0, getPlotType plotID)) as ->.
  { destruct (decide (getPlotType plotID
                      = getPlotType (deref oob (plots c) (length (plots c)))))
      as [<-|Hoob]; [apply search_exit|].
    destruct fuel as [|fuel]; [lia|].
    rewrite search_S by done. cbv zeta.
    pose proof (middle_bounds 0 (length (plots c)) Hlen) as Hm.
    rewrite Hin by lia.
    destruct (decide (_ > _)%Z); [lia|apply search_exit]. }
  destruct (decide (_ ≠ _)); done.
Qed.

(** With plots of one plot type only, every call returns: the trace has one
    canvas for each operation. *)
Lemma run_complete (fuel : nat) (c : Canvas) (ops : list op) (t : Z) :
  1 ≤ fuel →
  Forall (λ p, getPlotType p = t) (plots c) →
  Forall (λ o, match o with
               | AddPlot plotID _ => getPlotType plotID = t
               | RemovePlot _ => True
               end) ops →
  length (run fuel c ops) = length ops.
Proof using Type.
  intros Hfuel. revert c.
  induction ops as [|o ops IH]; intros c Hc Hops; simpl; [done|].
  apply Forall_cons in Hops as [Ho Hops].
  destruct o as [plotID oob|plotID]; simpl.
  - destruct (decide (plots c = [])) as [Hnil|Hnil].
    + unfold addPlot. rewrite Hnil. simpl. unfold setAxisType. simpl.
      destruct (getPlotAxisType plotID); simpl; f_equal; apply IH; try done;
        simpl; by constructor.
    + rewrite addPlot_homogeneous; [|done|done|].
      * simpl. f_equal. apply IH; [|done]. simpl. by constructor.
      * eapply Forall_impl; [exact Hc|]. simpl. congruence.
  - f_equal. apply IH; [|done]. unfold removePlot.
    destruct (list_find _ _) as [[it x]|]; [|done]. simpl.
    by apply Forall_delete.
Qed.

(** ** Axis types at construction *)

Lemma addPlot_axisType (fuel : nat) (oob : PLOT_ID) (c c' : Canvas)
    (plotID : PLOT_ID) :
  axisType c = Some (getPlotAxisType plotID) →
  addPlot fuel oob c plotID = Some (c', Ok tt) →
  axisType c' = axisType c.
Proof using Type.
  intros Hax. unfold addPlot.
  destruct (decide (length (plots c) = 0)) as [Hlen|Hlen].
  - unfold setAxisType; simpl.
    destruct (getPlotAxisType plotID); intros [= <-]; simpl; done.
  - destruct (search _ _ _ _ _ _ _ _) as [[b bo]|]; [|done].
    destruct (decide (_ ≠ _)); intros [= <-]; done.
Qed.

Lemma Canvas_loop_mismatch (fuel : nat) (oob : nat → PLOT_ID) (i : nat)
    (c : Canvas) (ids : list PLOT_ID) (a : AXIS_TYPE) (r : result Canvas) :
  axisType c = Some a →
  (∃ p, p ∈ ids ∧ getPlotAxisType p ≠ a) →
  Canvas_loop fuel oob i c ids = Some r →
  ∃ e, r = LogicError e.
Proof using Type.
  revert i c. induction ids as [|plotID rest IH]; intros i c Hax [p [Hp Hpa]].
  - by apply elem_of_nil in Hp.
  - simpl. destruct (decide (_ ≠ _)) as [_|Heq]; [intros [= <-]; eauto|].
    apply dec_stable in Heq.
    destruct (addPlot fuel (oob i) c plotID) as [[c' [[]|e]]|] eqn:Hadd;
      [|intros [= <-]; eauto|done].
    apply IH.
    + erewrite addPlot_axisType; [exact Hax|exact Heq|exact Hadd].
    + exists p. split; [|done].
      apply elem_of_cons in Hp as [->|Hp]; [|done].
      rewrite Hax in Heq. congruence.
Qed.

Lemma Canvas_loop_terminates (fuel : nat) (oob : nat → PLOT_ID) (i : nat)
    (c : Canvas) (ids : list PLOT_ID) (t : Z) :
  1 ≤ fuel →
  Forall (λ p, getPlotType p = t) (plots c) →
  Forall (λ p, getPlotType p = t) ids →
  ∃ r, Canvas_loop fuel oob i c ids = Some r.
Proof using Type.
  intros Hfuel. revert i c.
  induction ids as [|plotID rest IH]; intros i c Hc Hids; simpl; [eauto|].
  apply Forall_cons in Hids as [Ht Hrest].
  destruct (decide (_ ≠ _)) as [_|_]; [eauto|].
  destruct (decide (plots c = [])) as [Hnil|Hnil].
  - unfold addPlot. rewrite Hnil. simpl.
    unfold setAxisType; simpl.
    destruct (getPlotAxisType plotID); eauto.
    apply IH; [|done]. simpl. by constructor.
  - rewrite addPlot_homogeneous; [|done|done|].
    + apply IH; [|done]. simpl. by constructor.
    + eapply Forall_impl; [exact Hc|]. simpl. congruence.
Qed.

(** C2, as the code has it.  Creating a canvas from a plot list in which
    some plot has another axis type than the first never succeeds: the
    constructor throws a logic error whenever it returns at all, and it does
    return one when all the plots have the same plot type (the only case
    that the sources at hand can produce).  Creating a canvas from a single
    plot whose axis type is [SPECIAL] throws the logic error of the
    unimplemented axis type. *)
Theorem Canvas_new_axis_types (fuel : nat) (oob : nat → PLOT_ID)
    (maxID : CANVAS_ID) (first : PLOT_ID) (rest : list PLOT_ID) :
  ((∃ p, p ∈ rest ∧ getPlotAxisType p ≠ getPlotAxisType first) →
     (∀ r, Canvas_new fuel oob maxID (first :: rest) = Some r →
           ∃ e, r = LogicError e) ∧
     (1 ≤ fuel → Forall (λ p, getPlotType p = getPlotType first) rest →
      ∃ e, Canvas_new fuel oob maxID (first :: rest) = Some (LogicError e)))
  ∧ (getPlotAxisType first = SPECIAL →
     Canvas_new fuel oob maxID [first]
       = Some (LogicError AxisTypeUnimplemented)).
Proof using Type.
  split.
  - intros [p [Hp Hpa]].
    assert (∀ r, Canvas_new fuel oob maxID (first :: rest) = Some r →
                 ∃ e, r = LogicError e) as Hfail.
    { intros r. unfold Canvas_new.
      destruct (decide (_ ∧ _)) as [_|_]; [intros [= <-]; eauto|].
      destruct (Canvas_loop _ _ _ _ _) as [[c|e]|] eqn:Hloop;
        [|intros [= <-]; eauto|done].
      eapply Canvas_loop_mismatch in Hloop as [e He]; [done|done|].
      exists p. split; [by apply elem_of_cons; right|done]. }
    split; [done|]. intros Hfuel Hall.
    assert (∃ r, Canvas_new fuel oob maxID (first :: rest) = Some r)
      as [r Hr].
    { unfold Canvas_new.
      destruct (decide (_ ∧ _)) as [_|_]; [eauto|].
      destruct (Canvas_loop_terminates fuel oob 0
                  (set_axisType (blank maxID) (getPlotAxisType first))
                  (first :: rest) (getPlotType first))
        as [[c|e] ->]; [done|constructor|by constructor| |eauto].
      destruct (setAxisType c); eauto. }
    destruct (Hfail r Hr) as [e ->]. eauto.
  - intros Hspecial. unfold Canvas_new.
    destruct (decide (_ ∧ _)) as [[Hlen _]|_]; [simpl in Hlen; lia|].
    simpl. destruct (decide (_ ≠ _)) as [Hne|_]; [done|].
    unfold addPlot, setAxisType. simpl. by rewrite Hspecial.
Qed.

(** C10.  [removePlot] with a plot identifier that is not in the membership
    list returns (it has no throwing path) and leaves the canvas, hence the
    list, as it was. *)
Theorem removePlot_absent (c : Canvas) (plotID : PLOT_ID) :
  plotID ∉ plots c → removePlot c plotID = c.
Proof using Type.
  intros Hnot. unfold removePlot.
  destruct (list_find _ _) as [[it x]|] eqn:Hfind; [|done].
  apply list_find_Some in Hfind as (Hit & -> & _).
  exfalso. apply Hnot. by eapply list_elem_of_lookup_2.
Qed.


(** ** Axis ranges *)

Lemma setEnds_ends (ax : Axis) (a b : Z) :
  minT (setEnds ax a b).1 = a ∧ maxT (setEnds ax a b).1 = b.
Proof using Type.
  unfold setEnds, setMajorMinor.
  destruct (decide (_ ∧ _)) as [[? ?]|_]; simpl; [done|].
  destruct (tick_spacing _ _ _); done.
Qed.

(** C8.  After [setEnds(a, b)], a second [setEnds(a, b)] returns [false]
    and leaves the axis as it is, tick intervals and number of
    recomputations included; [setEnds(a, c)] with [c ≠ b] returns [true]
    after one more recomputation of the tick intervals, for the new
    range. *)
Theorem setEnds_idempotent (ax : Axis) (a b : Z) :
  let ax1 := (setEnds ax a b).1 in
  setEnds ax1 a b = (ax1, false) ∧
  ∀ c, c ≠ b →
    ∃ ax2, setEnds ax1 a c = (ax2, true) ∧
           recomputed ax2 = S (recomputed ax1) ∧
           (major ax2, minor ax2) = tick_spacing (logarithmic ax1) a c.
Proof using Type.
  intros ax1. destruct (setEnds_ends ax a b) as [Hmin Hmax].
  fold ax1 in Hmin, Hmax. split.
  - unfold setEnds at 1. destruct (decide (_ ∧ _)) as [_|Hne]; [done|].
    exfalso. apply Hne. done.
  - intros c Hc. unfold setEnds at 1.
    destruct (decide (_ ∧ _)) as [[_ Heq]|_]; [congruence|].
    eexists. split; [reflexivity|]. unfold setMajorMinor. simpl.
    destruct (tick_spacing _ _ _) eqn:Hticks. simpl. done.
Qed.

(** ** The paint pass *)

Lemma draw_single_series (c : Canvas) (w : World) (size : POINT)
    (plotID : PLOT_ID) (s : Series) (vals : list Z) :
  plots c = [plotID] → length (axisLimits c) = 4 →
  plotMap w !! plotID = Some s →
  load (heap w) (data s) (sizeData s) = Done vals →
  ∃ c', draw c w size = Done c' ∧
        axisLimits c' = [0; (sizeData s - 1) * skip s;
                         minValue vals; maxValue vals]%Z.
Proof using Type.
  intros Hplots Hlen Hs Hload. unfold draw. rewrite Hplots. simpl.
  unfold getPlotAxisLimits, drawPlot, Series_getAxisLimits, Series_draw.
  rewrite Hs, Hload. simpl. eexists. split; [reflexivity|]. simpl.
  destruct (axisLimits c) as [|l0 [|l1 [|l2 [|l3 [|]]]]]; done.
Qed.

Lemma draw_corners (c c' : Canvas) (w : World) (size : POINT) :
  length (drawSpace c) = 4 → length (axes c) = 2 →
  draw c w size = Done c' →
  let clearanceHoriz := getClearance (deref fresh_Axis (axes c') 0) in
  let clearanceVert := getClearance (deref fresh_Axis (axes c') 1) in
  drawSpace c' =
    [ mkPOINT clearanceVert (py size - clearanceHoriz);
      mkPOINT (px size - SP_BORDER_WIDTH) (py size - clearanceHoriz);
      mkPOINT clearanceVert SP_BORDER_WIDTH;
      mkPOINT (px size - SP_BORDER_WIDTH) SP_BORDER_WIDTH ].
Proof using Type.
  intros Hds Hax. unfold draw.
  destruct (for_each _ (axisLimits c) (plots c)) as [lim|f]; [|done]. simpl.
  destruct (for_each _ tt (plots c)) as [[]|f]; [|done]. simpl.
  intros [= <-]. simpl.
  destruct (drawSpace c) as [|d0 [|d1 [|d2 [|d3 [|]]]]]; try done.
  destruct (axes c) as [|a0 [|a1 [|]]]; done.
Qed.

(** C5.  A canvas made of one series plot of the five samples 1, 3, 2, 5,
    4 with skip 1 computes the axis limits minX = 0, maxX = 4, minY = 1,
    maxY = 5 in its paint pass; and two paint passes on any two canvases
    and any two plot stores that see the same window size and the same
    two axis clearances compute the same four corners of the draw
    space. *)
Theorem draw_limits_and_corners :
  (∀ fuel oob maxID plotID a w size,
     getPlotAxisType plotID = CART_2D →
     plotMap w !! plotID = Some (mkSeries 1 a 5) →
     heap w !! a = Some (Live [1; 3; 2; 5; 4]%Z) →
     ∃ c c', Canvas_new fuel oob maxID [plotID] = Some (Ok c) ∧
             draw c w size = Done c' ∧
             axisLimits c' = [0; 4; 1; 5]%Z)
  ∧ (∀ c1 w1 c2 w2 size c1' c2',
       length (drawSpace c1) = 4 → length (axes c1) = 2 →
       length (drawSpace c2) = 4 → length (axes c2) = 2 →
       draw c1 w1 size = Done c1' → draw c2 w2 size = Done c2' →
       getClearance (deref fresh_Axis (axes c1') 0)
         = getClearance (deref fresh_Axis (axes c2') 0) →
       getClearance (deref fresh_Axis (axes c1') 1)
         = getClearance (deref fresh_Axis (axes c2') 1) →
       drawSpace c1' = drawSpace c2').
Proof using Type.
  split.
  - intros fuel oob maxID plotID a w size Hax Hs Ha.
    assert (∃ c, Canvas_new fuel oob maxID [plotID] = Some (Ok c) ∧
                 plots c = [plotID] ∧ length (axisLimits c) = 4)
      as (c & Hnew & Hplots & Hlen).
    { unfold Canvas_new.
      destruct (decide (_ ∧ _)) as [[Hl _]|_]; [simpl in Hl; lia|].
      simpl. destruct (decide (_ ≠ _)) as [Hne|_]; [done|].
      unfold addPlot, setAxisType. simpl. rewrite Hax. simpl.
      eexists. split; [reflexivity|]. done. }
    destruct (draw_single_series c w size plotID (mkSeries 1 a 5)
                [1; 3; 2; 5; 4]%Z Hplots Hlen Hs) as (c' & Hdraw & Hlim).
    { unfold load. simpl. by rewrite Ha. }
    exists c, c'. done.
  - intros c1 w1 c2 w2 size c1' c2' Hd1 Ha1 Hd2 Ha2 Hdraw1 Hdraw2 Hh Hv.
    rewrite (draw_corners c1 c1' w1 size Hd1 Ha1 Hdraw1).
    rewrite (draw_corners c2 c2' w2 size Hd2 Ha2 Hdraw2).
    cbv zeta. by rewrite Hh, Hv.
Qed.


(** ** Termination of the render loop *)

Lemma deletePlotData_Done (w w' : World) (plotID : PLOT_ID) :
  deletePlotData w plotID = Done w' →
  ∃ s vals, plotMap w !! plotID = Some s ∧
            heap w !! data s = Some (Live vals) ∧
            w' = mkWorld (plotMap w) (<[data s := Freed]> (heap w)).
Proof using Type.
  unfold deletePlotData, Series_deleteData.
  destruct (plotMap w !! plotID) as [s|] eqn:Hs; [|done].
  destruct (heap w !! data s) as [[vals|]|] eqn:Hh; simpl; try done.
  intros [= <-]. exists s, vals. by rewrite insert_id.
Qed.

(** A successful pass of [deletePlotData] over the member plots allocates
    nothing, keeps the plot objects, and leaves the data block of each
    member plot released. *)
Lemma for_each_deletePlotData (ids : list PLOT_ID) (w w' : World) :
  for_each deletePlotData w ids = Done w' →
  plotMap w' = plotMap w ∧
  dom (heap w') = dom (heap w) ∧
  (∀ a, heap w !! a = Some Freed → heap w' !! a = Some Freed) ∧
  Forall (λ plotID, ∃ s, plotMap w' !! plotID = Some s ∧
                         heap w' !! data s = Some Freed) ids.
Proof using Type.
  revert w. induction ids as [|plotID rest IH]; intros w; simpl.
  - intros [= <-]. done.
  - destruct (deletePlotData w plotID) as [w1|f] eqn:Hdel; [|done]. simpl.
    intros Hrest.
    apply deletePlotData_Done in Hdel as (s & vals & Hs & Hh & ->).
    apply IH in Hrest as (Hmap & Hdom & Hfreed & Hall). simpl in *.
    split; [done|]. split.
    { rewrite Hdom. apply dom_insert_lookup_L. by rewrite Hh. }
    split.
    { intros a Ha. apply Hfreed.
      destruct (decide (data s = a)) as [<-|Hne];
        [by rewrite lookup_insert_eq|by rewrite lookup_insert_ne]. }
    constructor; [|done].
    exists s. rewrite Hmap. split; [done|].
    apply Hfreed. by rewrite lookup_insert_eq.
Qed.

(** C6, as the code has it.  When the render loop finds the termination
    flag of its window handle set (or finds no flag) and the canvas is not
    killed yet, the canvas releases the backbuffer, sets the flag, releases
    the data block of every member plot if it is in static mode (it
    allocates no copy), marks itself killed and leaves the loop; a canvas
    that is killed already only leaves the loop. *)
Theorem launch_step_kill (c : Canvas) (w : World) (g : Globals)
    (size : POINT) :
  killNow c g = true →
  let bitmap := default 0%Z (hwndToBitmap g !! hwnd c) in
  let g' := mkGlobals (<[hwnd c := bitmap]> (hwndToBitmap g))
                      (<[hwnd c := true]> (terminateCanvas g))
                      (bitmaps g ∖ {[bitmap]}) in
  (killed c = true → launch_step c w g size = Done (Break, (c, w, g)))
  ∧ (killed c = false → framerate c ≠ SP_STATIC →
     launch_step c w g size = Done (Break, (set_killed c true, w, g')))
  ∧ (killed c = false → framerate c = SP_STATIC →
     ∀ w', for_each deletePlotData w (plots c) = Done w' →
       launch_step c w g size = Done (Break, (set_killed c true, w', g'))
       ∧ dom (heap w') = dom (heap w)
       ∧ Forall (λ plotID, ∃ s, plotMap w' !! plotID = Some s ∧
                                heap w' !! data s = Some Freed) (plots c))
  ∧ (bitmap ∉ bitmaps g')
  ∧ (terminateCanvas g' !! hwnd c = Some true).
Proof using Type.
  intros Hnow bitmap g'. unfold launch_step, kill. rewrite Hnow.
  split; [|split; [|split; [|split]]].
  - intros Hk. by rewrite Hk.
  - intros Hk Hrate. rewrite Hk. destruct (decide (_ = _)); done.
  - intros Hk Hrate w' Hdel. rewrite Hk.
    destruct (decide (_ = _)) as [_|]; [|done].
    rewrite Hdel. simpl.
    apply for_each_deletePlotData in Hdel as (_ & Hdom & _ & Hall). done.
  - simpl. rewrite elem_of_difference, elem_of_singleton.
    intros [_ Hne]. by apply Hne.
  - simpl. by rewrite lookup_insert_eq.
Qed.

(** ** Insertions that neither insert nor throw *)

(** On a canvas of one plot, inserting a plot of a smaller plot type never
    returns when the read past the end yields a plot of another type than
    the member's: [middle] is [begin], and the loop keeps [begin]. *)
Lemma addPlot_diverges (oob : PLOT_ID) (c : Canvas) (p plotID : PLOT_ID) :
  plots c = [p] →
  (getPlotType p > getPlotType plotID)%Z →
  getPlotType p ≠ getPlotType oob →
  ∀ fuel, addPlot fuel oob c plotID = None.
Proof using Type.
  intros Hplots Hgt Hoob fuel. unfold addPlot. rewrite Hplots.
  destruct (decide (length [p] = 0)) as [Hlen|_]; [done|].
  cbv zeta. rewrite search_stuck; done.
Qed.

(** ** What a call of [addPlot] leaves behind *)

Lemma vector_insert_Permutation (l : list PLOT_ID) (i : nat) (x : PLOT_ID) :
  vector_insert l i x ≡ₚ x :: l.
Proof using Type.
  unfold vector_insert. rewrite <- Permutation_middle.
  by rewrite take_drop.
Qed.

(** The three ways in which [addPlot] returns or throws *)
Lemma addPlot_inv (fuel : nat) (oob : PLOT_ID) (c c' : Canvas)
    (plotID : PLOT_ID) (r : result unit) :
  addPlot fuel oob c plotID = Some (c', r) →
  (plots c = [] ∧ plots c' = [plotID] ∧
   axisType c' = Some (getPlotAxisType plotID) ∧
   (r = Ok tt ∧ getPlotAxisType plotID = CART_2D ∨
    r = LogicError AxisTypeUnimplemented ∧ getPlotAxisType plotID ≠ CART_2D))
  ∨ (plots c ≠ [] ∧ c' = c ∧ r = LogicError BinaryInsertFailed)
  ∨ (plots c ≠ [] ∧ r = Ok tt ∧
     ∃ it y, plots c !! it = Some y ∧ getPlotType y = getPlotType plotID ∧
             c' = set_plots c (vector_insert (plots c) it plotID)).
Proof using Type.
  unfold addPlot.
  destruct (decide (length (plots c) = 0)) as [Hlen|Hlen].
  - apply length_zero_iff_nil in Hlen.
    unfold setAxisType; simpl.
    destruct (getPlotAxisType plotID) eqn:Hax; intros [= <- <-]; left; simpl;
      rewrite Hlen; repeat split; auto.
  - assert (plots c ≠ []) as Hne by (by intros Hnil; rewrite Hnil in Hlen).
    destruct (search _ _ _ _ _ _ _ _) as [[b bo]|] eqn:Hsearch; [|done].
    apply search_found in Hsearch as [Hb Hbo]; [|lia|lia|done|left; lia].
    destruct (decide (bo ≠ getPlotType plotID)) as [Hbad|Heq];
      intros [= <- <-]; [right; left; done|].
    right. right. apply dec_stable in Heq.
    destruct (lookup_lt_is_Some_2 _ _ Hb) as [y Hy].
    split; [done|]. split; [done|]. exists b, y. split; [done|].
    split; [|done]. unfold deref in Hbo. rewrite Hy in Hbo. simpl in Hbo.
    congruence.
Qed.

(** X1.  A throwing [addPlot] leaves a non-empty canvas exactly as it was
    (the error is the failed binary insert), but it leaves the plot in the
    membership list of a canvas that was empty (the error is the
    unimplemented axis type, thrown after the [push_back]). *)
Theorem addPlot_throw_state (fuel : nat) (oob : PLOT_ID) (c c' : Canvas)
    (plotID : PLOT_ID) (e : logic_error) :
  addPlot fuel oob c plotID = Some (c', LogicError e) →
  (plots c ≠ [] ∧ c' = c ∧ e = BinaryInsertFailed)
  ∨ (plots c = [] ∧ plots c' = [plotID] ∧ e = AxisTypeUnimplemented ∧
     getPlotAxisType plotID ≠ CART_2D).
Proof using Type.
  intros Hadd.
  apply addPlot_inv in Hadd
    as [(Hnil & Hone & _ & [[? _]|[[= <-] Hax]])
       |[(Hne & -> & [= <-])|(_ & ? & _)]]; try done; auto.
Qed.

(** X2.  When [addPlot] returns, the membership list has gained exactly the
    plot; on a non-empty canvas some member already had the plot type of the
    new plot, and on an empty canvas the plot wants the Cartesian axes. *)
Theorem addPlot_Ok_member (fuel : nat) (oob : PLOT_ID) (c c' : Canvas)
    (plotID : PLOT_ID) :
  addPlot fuel oob c plotID = Some (c', Ok tt) →
  plots c' ≡ₚ plotID :: plots c ∧
  (plots c ≠ [] → ∃ y, y ∈ plots c ∧ getPlotType y = getPlotType plotID) ∧
  (plots c = [] → getPlotAxisType plotID = CART_2D).
Proof using Type.
  intros Hadd.
  apply addPlot_inv in Hadd
    as [(Hnil & Hone & _ & [[_ Hax]|[? _]])
       |[(_ & _ & ?)|(Hne & _ & it & y & Hy & Hty & ->)]]; try done.
  - rewrite Hone, Hnil. done.
  - split; [apply vector_insert_Permutation|]. split; [|done].
    intros _. exists y. split; [by eapply list_elem_of_lookup_2|done].
Qed.

Lemma addPlot_one_plot_type (fuel : nat) (oob : PLOT_ID) (c c' : Canvas)
    (plotID : PLOT_ID) (r : result unit) :
  one_plot_type (plots c) → addPlot fuel oob c plotID = Some (c', r) →
  one_plot_type (plots c').
Proof using Type.
  intros [t Ht] Hadd.
  apply addPlot_inv in Hadd
    as [(_ & Hone & _)|[(_ & -> & _)|(_ & _ & it & y & Hy & Hty & ->)]].
  - exists (getPlotType plotID). rewrite Hone. by repeat constructor.
  - by exists t.
  - exists t. simpl. unfold vector_insert. apply Forall_app.
    split; [by apply Forall_take|].
    constructor; [|by apply Forall_drop].
    rewrite <- Hty. exact (Forall_lookup_1 _ _ _ _ Ht Hy).
Qed.

(** X3.  Plot types never mix: on a canvas whose member plots all have one
    plot type (an empty canvas is one), the member plots have one plot type
    again after each call of [addPlot] or [removePlot]. *)
Theorem run_one_plot_type (fuel : nat) (c : Canvas) (ops : list op) :
  one_plot_type (plots c) →
  Forall (λ c', one_plot_type (plots c')) (run fuel c ops).
Proof using Type.
  revert c. induction ops as [|o ops IH]; intros c Hc; simpl; [constructor|].
  destruct (apply_op fuel c o) as [c'|] eqn:Hop; [|constructor].
  assert (one_plot_type (plots c')) as Hc'.
  { destruct o as [plotID oob|plotID]; simpl in Hop.
    - destruct (addPlot fuel oob c plotID) as [[c1 r]|] eqn:Hadd;
        [|discriminate].
      injection Hop as <-. by eapply addPlot_one_plot_type.
    - injection Hop as <-. destruct Hc as [t Ht]. exists t.
      unfold removePlot. destruct (list_find _ _) as [[it x]|]; [|done].
      simpl. by apply Forall_delete. }
  constructor; [done|by apply IH].
Qed.

(** ** Adding and removing *)

Lemma erase_vector_insert (l : list PLOT_ID) (i : nat) (x : PLOT_ID) :
  x ∉ l →
  ∃ it, list_find (λ y, y = x) (vector_insert l i x) = Some (it, x) ∧
        delete it (vector_insert l i x) = l.
Proof using Type.
  unfold vector_insert. revert i.
  induction l as [|a l IH]; intros i Hx.
  - exists 0. rewrite take_nil, drop_nil. simpl.
    destruct (decide (x = x)); done.
  - apply not_elem_of_cons in Hx as [Hxa Hx].
    destruct i as [|i]; simpl.
    + exists 0. destruct (decide (x = x)); done.
    + destruct (IH i Hx) as (it & Hfind & Hdel).
      exists (S it). destruct (decide (a = x)) as [->|_]; [done|].
      rewrite Hfind. simpl. by rewrite Hdel.
Qed.

(** X4.  Removing a plot right after [addPlot] was called for it gives back
    the membership list as it was before the call, provided the plot was not
    a member then; this holds whether [addPlot] returned or threw. *)
Theorem addPlot_removePlot (fuel : nat) (oob : PLOT_ID) (c c' : Canvas)
    (plotID : PLOT_ID) (r : result unit) :
  plotID ∉ plots c →
  addPlot fuel oob c plotID = Some (c', r) →
  plots (removePlot c' plotID) = plots c.
Proof using Type.
  intros Hnot Hadd. unfold removePlot.
  apply addPlot_inv in Hadd
    as [(Hnil & Hone & _)|[(_ & -> & _)|(_ & _ & it & y & _ & _ & ->)]].
  - rewrite Hone, Hnil. simpl. destruct (decide (plotID = plotID)); done.
  - destruct (list_find _ _) as [[it x]|] eqn:Hfind; [|done].
    apply list_find_Some in Hfind as (Hit & -> & _).
    exfalso. apply Hnot. by eapply list_elem_of_lookup_2.
  - simpl. destruct (erase_vector_insert (plots c) it plotID Hnot)
      as (it' & -> & Hdel). done.
Qed.

(** X5.  [removePlot] of a member erases one occurrence of the plot and
    nothing else; when no plot is listed twice, the plot is no member
    afterwards. *)
Theorem removePlot_present (c : Canvas) (plotID : PLOT_ID) :
  plotID ∈ plots c →
  plots c ≡ₚ plotID :: plots (removePlot c plotID) ∧
  (NoDup (plots c) → plotID ∉ plots (removePlot c plotID)).
Proof using Type.
  intros Hin.
  assert (plots c ≡ₚ plotID :: plots (removePlot c plotID)) as Hperm.
  { unfold removePlot.
    destruct (list_find _ _) as [[it x]|] eqn:Hfind.
    - apply list_find_Some in Hfind as (Hit & -> & _). simpl.
      by apply delete_Permutation.
    - apply list_find_None in Hfind.
      rewrite Forall_forall in Hfind. by destruct (Hfind plotID Hin). }
  split; [done|]. intros Hnodup. rewrite Hperm in Hnodup.
  by apply NoDup_cons in Hnodup as [? _].
Qed.

(** ** The constructor *)

Lemma addPlot_id (fuel : nat) (oob : PLOT_ID) (c c' : Canvas)
    (plotID : PLOT_ID) (r : result unit) :
  addPlot fuel oob c plotID = Some (c', r) → id c' = id c.
Proof using Type.
  unfold addPlot. destruct (decide (length (plots c) = 0)) as [Hlen|Hlen].
  - unfold setAxisType; simpl.
    destruct (getPlotAxisType plotID); intros [= <- <-]; done.
  - destruct (search _ _ _ _ _ _ _ _) as [[b bo]|]; [|done].
    destruct (decide (_ ≠ _)); intros [= <- <-]; done.
Qed.

Lemma Canvas_loop_Ok (fuel : nat) (oob : nat → PLOT_ID) (i : nat)
    (c c' : Canvas) (ids : list PLOT_ID) :
  Canvas_loop fuel oob i c ids = Some (Ok c') →
  axisType c' = axisType c ∧
  Forall (λ p, axisType c = Some (getPlotAxisType p)) ids ∧
  plots c' ≡ₚ ids ++ plots c ∧
  id c' = id c.
Proof using Type.
  revert i c. induction ids as [|plotID rest IH]; intros i c; simpl.
  - intros [= <-]. done.
  - destruct (decide (_ ≠ _)) as [_|Heq]; [done|]. apply dec_stable in Heq.
    destruct (addPlot fuel (oob i) c plotID) as [[c1 [[]|e]]|] eqn:Hadd;
      [|done|done].
    intros Hloop. apply IH in Hloop as (Hax & Hall & Hperm & Hid).
    pose proof (addPlot_axisType _ _ _ _ _ Heq Hadd) as Hax1.
    pose proof (addPlot_id _ _ _ _ _ _ Hadd) as Hid1.
    apply addPlot_inv in Hadd
      as [(Hnil & Hone & _)|[(_ & _ & ?)|(_ & _ & it & y & _ & _ & ->)]];
      [|done|].
    + rewrite Hax1 in *. split; [done|]. split; [by constructor|].
      split; [|congruence]. rewrite Hperm, Hone, Hnil.
      by rewrite Permutation_middle.
    + rewrite Hax1 in *. split; [done|]. split; [by constructor|].
      split; [|congruence]. rewrite Hperm. simpl.
      rewrite vector_insert_Permutation. by rewrite Permutation_middle.
Qed.

(** X6.  A canvas that the constructor returns for a non-empty plot list
    has the Cartesian axes, as every plot of the list has; its members are
    the plots of the list, each as often as the list names it; it carries the
    identifier it was given, and its three buffers are allocated. *)
Theorem Canvas_new_Ok (fuel : nat) (oob : nat → PLOT_ID)
    (maxID : CANVAS_ID) (plots_ : list PLOT_ID) (c : Canvas) :
  plots_ ≠ [] →
  Canvas_new fuel oob maxID plots_ = Some (Ok c) →
  axisType c = Some CART_2D ∧
  Forall (λ p, getPlotAxisType p = CART_2D) plots_ ∧
  plots c ≡ₚ plots_ ∧
  id c = maxID ∧
  length (axisLimits c) = 4 ∧ length (drawSpace c) = 4 ∧ length (axes c) = 2.
Proof using Type.
  intros Hne. unfold Canvas_new. destruct plots_ as [|first rest]; [done|].
  destruct (decide (_ ∧ _)) as [_|_]; [done|].
  destruct (Canvas_loop _ _ _ _ _) as [[c1|e]|] eqn:Hloop; [|done|done].
  apply Canvas_loop_Ok in Hloop as (Hax & Hall & Hperm & Hid).
  unfold setAxisType.
  destruct (axisType c1) as [[| |]|] eqn:Hc1; try done.
  intros [= <-]. simpl in *. split; [done|].
  assert (getPlotAxisType first = CART_2D) as Hfirst by congruence.
  split.
  { eapply Forall_impl; [exact Hall|]. simpl. intros p Hp. congruence. }
  split; [by rewrite Hperm, app_nil_r|]. done.
Qed.

Lemma Canvas_loop_rev (fuel : nat) (oob : nat → PLOT_ID) (i : nat)
    (c : Canvas) (ids : list PLOT_ID) (t : Z) :
  1 ≤ fuel → axisType c = Some CART_2D →
  Forall (λ p, getPlotType p = t) (plots c) →
  Forall (λ p, getPlotAxisType p = CART_2D) ids →
  Forall (λ p, getPlotType p = t) ids →
  ∃ c', Canvas_loop fuel oob i c ids = Some (Ok c') ∧
        plots c' = rev ids ++ plots c ∧
        axisType c' = Some CART_2D.
Proof using Type.
  intros Hfuel. revert i c.
  induction ids as [|plotID rest IH]; intros i c Hax Hc Haxes Htypes; simpl.
  - eauto.
  - apply Forall_cons in Haxes as [Hp Haxes].
    apply Forall_cons in Htypes as [Ht Htypes].
    destruct (decide (_ ≠ _)) as [Hne|_]; [by rewrite Hax, Hp in Hne|].
    assert (∃ c1, addPlot fuel (oob i) c plotID = Some (c1, Ok tt) ∧
                  plots c1 = plotID :: plots c ∧
                  axisType c1 = Some CART_2D) as (c1 & -> & Hc1 & Hax1).
    { destruct (decide (plots c = [])) as [Hnil|Hnil].
      - unfold addPlot, setAxisType. rewrite Hnil, Hp. simpl.
        eexists. split; [reflexivity|]. done.
      - rewrite addPlot_homogeneous; [|done|done|].
        + eexists. split; [reflexivity|]. done.
        + eapply Forall_impl; [exact Hc|]. simpl. congruence. }
    assert (Forall (λ p, getPlotType p = t) (plots c1)) as Hc1t
      by (rewrite Hc1; by constructor).
    destruct (IH (S i) c1 Hax1 Hc1t Haxes Htypes) as (c' & Hloop & Hplots & ?).
    exists c'. split; [done|]. split; [|done].
    rewrite Hplots, Hc1. by rewrite <- app_assoc.
Qed.

(** X7.  From a list of plots that all want the Cartesian axes and all have
    one plot type, the constructor returns a canvas, and its membership list
    is the given list in reverse: every plot went to the front. *)
Theorem Canvas_new_rev (fuel : nat) (oob : nat → PLOT_ID)
    (maxID : CANVAS_ID) (plots_ : list PLOT_ID) (t : Z) :
  1 ≤ fuel →
  Forall (λ p, getPlotAxisType p = CART_2D) plots_ →
  Forall (λ p, getPlotType p = t) plots_ →
  ∃ c, Canvas_new fuel oob maxID plots_ = Some (Ok c) ∧
       plots c = rev plots_.
Proof using Type.
  intros Hfuel Haxes Htypes. unfold Canvas_new.
  destruct plots_ as [|first rest]; [eauto|].
  pose proof (Forall_inv Haxes) as Hfirst. simpl in Hfirst.
  destruct (decide (_ ∧ _)) as [[_ Hspecial]|_].
  { simpl in Hspecial. rewrite Hfirst in Hspecial. done. }
  assert (axisType (set_axisType (blank maxID) (getPlotAxisType first))
          = Some CART_2D) as Hax0 by (simpl; by rewrite Hfirst).
  assert (Forall (λ p, getPlotType p = t)
            (plots (set_axisType (blank maxID) (getPlotAxisType first))))
    as Hnil by constructor.
  destruct (Canvas_loop_rev fuel oob 0 _ (first :: rest) t
              Hfuel Hax0 Hnil Haxes Htypes) as (c1 & -> & Hplots & Hax1).
  unfold setAxisType. rewrite Hax1. eexists. split; [reflexivity|].
  simpl. rewrite Hplots. simpl. by rewrite app_nil_r.
Qed.

(** ** The search ends within the length of the list, or never *)

Lemma search_mono (fuel fuel' : nat) (oob : PLOT_ID) (l : list PLOT_ID)
    (thisOrder : Z) (begin end_ : nat) (beginOrder endOrder : Z)
    (r : nat * Z) :
  fuel ≤ fuel' →
  search fuel oob l thisOrder begin end_ beginOrder endOrder = Some r →
  search fuel' oob l thisOrder begin end_ beginOrder endOrder = Some r.
Proof using Type.
  revert fuel' begin end_ beginOrder endOrder.
  induction fuel as [|fuel IH]; intros fuel' b e bo eo Hle Hs;
    (destruct (decide (bo = eo)) as [<-|Hne];
     [by rewrite search_exit in *|]).
  { by rewrite search_O in Hs. }
  destruct fuel' as [|fuel']; [lia|].
  rewrite search_S in * by done. cbv zeta in *.
  destruct (decide (_ > _)%Z); apply IH; (lia || done).
Qed.

Lemma search_fuel (fuel fuel' : nat) (oob : PLOT_ID) (l : list PLOT_ID)
    (thisOrder : Z) (begin end_ : nat) (beginOrder endOrder : Z) :
  end_ - begin < fuel → end_ - begin < fuel' → begin < end_ →
  beginOrder = getPlotType (deref oob l begin) →
  search fuel oob l thisOrder begin end_ beginOrder endOrder
  = search fuel' oob l thisOrder begin end_ beginOrder endOrder.
Proof using Type.
  intros Hf Hf' Hlt Hbo.
  destruct (search fuel oob l thisOrder begin end_ beginOrder endOrder)
    as [r|] eqn:Hs.
  - destruct (search fuel' oob l thisOrder begin end_ beginOrder endOrder)
      as [r'|] eqn:Hs'.
    + destruct (decide (fuel ≤ fuel')) as [Hle|Hle].
      * apply (search_mono fuel fuel') in Hs; [congruence|done].
      * apply (search_mono fuel' fuel) in Hs'; [congruence|lia].
    + pose proof (search_None_diverges _ _ _ _ _ _ _ _ Hf' Hlt Hbo Hs' fuel).
      congruence.
  - symmetry.
    exact (search_None_diverges _ _ _ _ _ _ _ _ Hf Hlt Hbo Hs fuel').
Qed.

(** X8.  The search of [addPlot] makes at most as many iterations as the
    canvas has plots, or it never ends: with more fuel than that, the outcome
    of [addPlot] does not depend on the fuel. *)
Theorem addPlot_fuel (fuel fuel' : nat) (oob : PLOT_ID) (c : Canvas)
    (plotID : PLOT_ID) :
  length (plots c) < fuel → length (plots c) < fuel' →
  addPlot fuel oob c plotID = addPlot fuel' oob c plotID.
Proof using Type.
  intros Hf Hf'. unfold addPlot.
  destruct (decide (length (plots c) = 0)) as [_|Hlen]; [done|].
  cbv zeta. rewrite (search_fuel fuel fuel'); [done|lia|lia|lia|done].
Qed.

(** ** Private copies *)

Lemma load_copy (h h' : gmap nat block) (a a' : nat) (n : Z)
    (vals : list Z) :
  load h a n = Done vals → h' !! a' = Some (Live vals) →
  load h' a' n = Done vals.
Proof using Type.
  unfold load. intros Hload ->.
  destruct (h !! a) as [[v|]|]; try done.
  destruct (decide (n ≤ Z.of_nat (length v))%Z) as [Hn|]; [|done].
  injection Hload as <-.
  destruct (decide (_ ≤ _)%Z) as [_|Hbad].
  - by rewrite take_take, Nat.min_id.
  - exfalso. apply Hbad. rewrite length_take. lia.
Qed.

Lemma load_Done_dom (h : gmap nat block) (a : nat) (n : Z) (vals : list Z) :
  load h a n = Done vals → a ∈ dom h.
Proof using Type.
  unfold load. intros Hload. apply elem_of_dom.
  destruct (h !! a); [eauto|done].
Qed.

Lemma isolatePlotData_Done (w w' : World) (plotID : PLOT_ID) :
  isolatePlotData w plotID = Done w' →
  ∃ s vals, plotMap w !! plotID = Some s ∧
            load (heap w) (data s) (sizeData s) = Done vals ∧
            w' = mkWorld
                   (<[plotID := mkSeries (skip s) (fresh (dom (heap w)))
                                         (sizeData s)]> (plotMap w))
                   (<[fresh (dom (heap w)) := Live vals]> (heap w)).
Proof using Type.
  unfold isolatePlotData, Series_isolateData.
  destruct (plotMap w !! plotID) as [s|] eqn:Hs; [|done].
  destruct (load _ _ _) as [vals|f] eqn:Hload; simpl; [|done].
  intros [= <-]. eauto.
Qed.

(** A successful pass of [isolatePlotData] keeps the blocks that were there,
    keeps what every readable plot shows, and leaves each plot of the pass
    with a data block that was not there before. *)
Lemma for_each_isolatePlotData (ids : list PLOT_ID) (w w' : World) :
  for_each isolatePlotData w ids = Done w' →
  dom (heap w) ⊆ dom (heap w') ∧
  (∀ a, a ∈ dom (heap w) → heap w' !! a = heap w !! a) ∧
  (∀ p sk n vals, plot_view w p = Some (sk, n, Done vals) →
                  plot_view w' p = Some (sk, n, Done vals)) ∧
  (∀ p, p ∉ ids → plotMap w' !! p = plotMap w !! p) ∧
  (∀ p, p ∈ ids → ∃ s', plotMap w' !! p = Some s' ∧
                        data s' ∉ dom (heap w)).
Proof using Type.
  revert w. induction ids as [|plotID rest IH]; intros w; simpl.
  - intros [= <-]. repeat split; try done.
    intros p Hp. by apply elem_of_nil in Hp.
  - destruct (isolatePlotData w plotID) as [w1|f] eqn:Hiso; [|done]. simpl.
    intros Hrest.
    apply isolatePlotData_Done in Hiso as (s & vals0 & Hs & Hload & ->).
    apply IH in Hrest as (Hdom & Hold & Hview & Hout & Hin). simpl in *.
    pose proof (is_fresh (dom (heap w))) as Hfresh.
    set (f := fresh (dom (heap w))) in *.
    assert (dom (heap w) ⊆ dom (heap w')) as Hsub.
    { etrans; [|exact Hdom]. apply dom_insert_subseteq. }
    split; [done|]. split.
    { intros a Ha. rewrite Hold.
      - apply lookup_insert_ne. intros ->. done.
      - by apply (dom_insert_subseteq (heap w) f (Live vals0)). }
    split.
    { intros p sk n vals Hp. apply Hview. unfold plot_view in *. simpl.
      destruct (decide (plotID = p)) as [->|Hne].
      - rewrite lookup_insert_eq. rewrite Hs in Hp. simpl in *.
        injection Hp as <- <- Hp. rewrite Hload in Hp. injection Hp as <-.
        do 2 f_equal. eapply load_copy; [exact Hload|].
        by rewrite lookup_insert_eq.
      - rewrite lookup_insert_ne by done.
        destruct (plotMap w !! p) as [sp|]; [|done]. simpl in *.
        injection Hp as <- <- Hp. do 2 f_equal.
        pose proof (load_Done_dom _ _ _ _ Hp) as Hdomp.
        unfold load in *. rewrite lookup_insert_ne; [done|].
        intros Heq. rewrite <- Heq in Hdomp. done. }
    split.
    { intros p Hp. apply not_elem_of_cons in Hp as [Hne Hp].
      rewrite Hout by done. by apply lookup_insert_ne. }
    intros p Hp.
    destruct (decide (p ∈ rest)) as [Hr|Hr].
    + destruct (Hin p Hr) as (s' & Hs' & Hdata). exists s'. split; [done|].
      intros Hbad. apply Hdata.
      by apply (dom_insert_subseteq (heap w) f (Live vals0)).
    + apply elem_of_cons in Hp as [->|Hp]; [|done].
      rewrite (Hout plotID Hr), lookup_insert_eq. eexists. split; [done|].
      done.
Qed.

Lemma getPlotAxisLimits_view (w : World) (plotID : PLOT_ID)
    (buf lim : list Z) :
  getPlotAxisLimits w plotID buf = Done lim →
  ∃ sk n vals, plot_view w plotID = Some (sk, n, Done vals) ∧
    ∀ w2, plot_view w2 plotID = Some (sk, n, Done vals) →
          getPlotAxisLimits w2 plotID buf = Done lim.
Proof using Type.
  unfold getPlotAxisLimits, Series_getAxisLimits, plot_view.
  destruct (plotMap w !! plotID) as [s|]; [|done]. simpl.
  destruct (load _ _ _) as [vals|f] eqn:Hload; [|done]. simpl.
  intros [= <-]. exists (skip s), (sizeData s), vals. split; [done|].
  intros w2. destruct (plotMap w2 !! plotID) as [s2|]; [|done]. simpl.
  intros [= -> -> ->]. done.
Qed.

(** X9.  After a successful pass of [isolatePlotData] over the member plots
    (what entering static mode runs), every plot reports the axis limits it
    reported before; and a plot of the pass goes on reporting them whatever
    is written afterwards into the blocks that existed before the pass: its
    data is a block of its own. *)
Theorem isolatePlotData_limits (ids : list PLOT_ID) (w w' : World)
    (plotID : PLOT_ID) (buf lim : list Z) :
  for_each isolatePlotData w ids = Done w' →
  getPlotAxisLimits w plotID buf = Done lim →
  getPlotAxisLimits w' plotID buf = Done lim ∧
  (plotID ∈ ids →
   ∀ h, (∀ a, a ∉ dom (heap w) → h !! a = heap w' !! a) →
        getPlotAxisLimits (mkWorld (plotMap w') h) plotID buf = Done lim).
Proof using Type.
  intros Hpass Hlim.
  apply for_each_isolatePlotData in Hpass as (_ & _ & Hview & _ & Hin).
  apply getPlotAxisLimits_view in Hlim as (sk & n & vals & Hv & Hsame).
  pose proof (Hview _ _ _ _ Hv) as Hv'.
  split; [by apply Hsame|].
  intros Hmem h Hh. apply Hsame.
  destruct (Hin plotID Hmem) as (s' & Hs' & Hdata).
  unfold plot_view in *. simpl. rewrite Hs' in *. simpl in *.
  injection Hv' as <- <- Hload. do 2 f_equal.
  unfold load in *. by rewrite (Hh _ Hdata).
Qed.

Lemma for_each_deletePlotData_old (ids : list PLOT_ID) (w w' : World)
    (D : gset nat) :
  for_each deletePlotData w ids = Done w' →
  (∀ p s, p ∈ ids → plotMap w !! p = Some s → data s ∉ D) →
  ∀ a, a ∈ D → heap w' !! a = heap w !! a.
Proof using Type.
  revert w. induction ids as [|plotID rest IH]; intros w; simpl.
  - intros [= <-]. done.
  - destruct (deletePlotData w plotID) as [w1|f] eqn:Hdel; [|done]. simpl.
    intros Hrest Hdata a Ha.
    apply deletePlotData_Done in Hdel as (s & vals & Hs & Hh & ->).
    rewrite (IH _ Hrest); simpl.
    + apply lookup_insert_ne. intros <-.
      by apply (Hdata plotID s (list_elem_of_here _ _) Hs).
    + intros p sp Hp. apply Hdata. by apply list_elem_of_further.
    + done.
Qed.

(** The three cases of [setFramerate] *)
Lemma setFramerate_enter (c : Canvas) (w : World) :
  framerate c ≠ SP_STATIC →
  setFramerate c w SP_STATIC
  = (w' ← for_each isolatePlotData w (plots c);
     mret (set_framerate c SP_STATIC, w')).
Proof using Type.
  intros Hrate. unfold setFramerate.
  rewrite (decide_True (P := SP_STATIC = SP_STATIC ∧ framerate c ≠ SP_STATIC))
    by done.
  destruct (for_each isolatePlotData w (plots c)) as [w'|f]; [|done]. simpl.
  by rewrite (decide_False
                (P := SP_STATIC ≠ SP_STATIC ∧ framerate c = SP_STATIC))
    by (by intros [? _]).
Qed.

Lemma setFramerate_leave (c : Canvas) (w : World) (framerate_ : Z) :
  framerate c = SP_STATIC → framerate_ ≠ SP_STATIC →
  setFramerate c w framerate_
  = (w' ← for_each deletePlotData w (plots c);
     mret (set_framerate c framerate_, w')).
Proof using Type.
  intros Hrate Hrate_. unfold setFramerate.
  rewrite (decide_False
             (P := framerate_ = SP_STATIC ∧ framerate c ≠ SP_STATIC))
    by (by intros [? _]).
  simpl.
  by rewrite (decide_True
                (P := framerate_ ≠ SP_STATIC ∧ framerate c = SP_STATIC))
    by done.
Qed.

Lemma setFramerate_same (c : Canvas) (w : World) (framerate_ : Z) :
  (framerate_ = SP_STATIC ↔ framerate c = SP_STATIC) →
  setFramerate c w framerate_ = Done (set_framerate c framerate_, w).
Proof using Type.
  intros Hiff. unfold setFramerate.
  rewrite (decide_False
             (P := framerate_ = SP_STATIC ∧ framerate c ≠ SP_STATIC))
    by (intros [Ha Hb]; apply Hiff in Ha; done).
  simpl.
  by rewrite (decide_False
                (P := framerate_ ≠ SP_STATIC ∧ framerate c = SP_STATIC))
    by (intros [Ha Hb]; apply Hiff in Hb; done).
Qed.

Lemma setFramerate_framerate (c c' : Canvas) (w w' : World) (framerate_ : Z) :
  setFramerate c w framerate_ = Done (c', w') →
  c' = set_framerate c framerate_.
Proof using Type.
  unfold setFramerate.
  destruct (if decide (framerate_ = SP_STATIC ∧ framerate c ≠ SP_STATIC)
            then for_each isolatePlotData w (plots c) else mret w)
    as [wa|f]; [|done]. simpl.
  destruct (if decide (framerate_ ≠ SP_STATIC ∧ framerate c = SP_STATIC)
            then for_each deletePlotData wa (plots c) else mret wa)
    as [wb|f]; [|done]. simpl.
  by intros [= <- _].
Qed.

(** X10.  Entering static mode and whatever [setFramerate] is called with
    next never writes to, nor releases, a block that existed before: the
    caller's buffers are as they were. *)
Theorem setFramerate_static_keeps_blocks (c c1 c2 : Canvas)
    (w w1 w2 : World) (framerate_ : Z) :
  framerate c ≠ SP_STATIC →
  setFramerate c w SP_STATIC = Done (c1, w1) →
  setFramerate c1 w1 framerate_ = Done (c2, w2) →
  ∀ a, a ∈ dom (heap w) → heap w2 !! a = heap w !! a.
Proof using Type.
  intros Hrate. rewrite setFramerate_enter by done.
  destruct (for_each isolatePlotData w (plots c)) as [wi|f] eqn:Hiso;
    [|done]. simpl. intros [= <- <-].
  apply for_each_isolatePlotData in Hiso as (_ & Hold & _ & _ & Hin).
  destruct (decide (framerate_ = SP_STATIC)) as [->|Hrate_].
  - rewrite setFramerate_same by done. intros [= _ <-]. exact Hold.
  - rewrite setFramerate_leave by done. simpl.
    destruct (for_each deletePlotData wi (plots c)) as [wd|f] eqn:Hdel;
      [|done]. simpl. intros [= _ <-] a Ha.
    rewrite (for_each_deletePlotData_old _ _ _ (dom (heap w)) Hdel);
      [by apply Hold| |done].
    intros p s Hp Hs. destruct (Hin p Hp) as (s' & Hs' & Hdata). congruence.
Qed.

(** X11.  Entering static mode and leaving it again on a canvas with at
    least one member plot leaves the first member with a released data
    block, so the next paint pass reads released memory. *)
Theorem setFramerate_toggle_use_after_free (c c1 c2 : Canvas)
    (w w1 w2 : World) (framerate_ : Z) (size : POINT) :
  framerate c ≠ SP_STATIC → framerate_ ≠ SP_STATIC → plots c ≠ [] →
  setFramerate c w SP_STATIC = Done (c1, w1) →
  setFramerate c1 w1 framerate_ = Done (c2, w2) →
  draw c2 w2 size = Fault UseAfterFree.
Proof using Type.
  intros Hrate Hrate_ Hne. rewrite setFramerate_enter by done.
  destruct (for_each isolatePlotData w (plots c)) as [wi|f]; [|done]. simpl.
  intros [= <- <-]. rewrite setFramerate_leave by done. simpl.
  destruct (for_each deletePlotData wi (plots c)) as [wd|f] eqn:Hdel;
    [|done]. simpl. intros [= <- <-].
  apply for_each_deletePlotData in Hdel as (_ & _ & _ & Hall).
  unfold draw. simpl. destruct (plots c) as [|p rest]; [done|].
  apply Forall_cons in Hall as [(s & Hs & Hfreed) _]. simpl.
  unfold getPlotAxisLimits, Series_getAxisLimits, load.
  by rewrite Hs, Hfreed.
Qed.

(** X12.  Calling [setFramerate] a second time with the same rate changes
    nothing: no second copy is made on entering static mode twice, and no
    block is released twice on leaving it twice. *)
Theorem setFramerate_repeat (c c1 : Canvas) (w w1 : World) (framerate_ : Z) :
  setFramerate c w framerate_ = Done (c1, w1) →
  setFramerate c1 w1 framerate_ = Done (c1, w1).
Proof using Type.
  intros Hset. apply setFramerate_framerate in Hset as ->.
  rewrite setFramerate_same by done. by destruct c.
Qed.

(** X13.  Leaving static mode releases the data block that each member plot
    points to, whichever it is: [addPlot] does not isolate the data of a plot
    that joins a canvas in static mode, so for such a plot the block that is
    released is the caller's buffer. *)
Theorem setFramerate_leave_releases (c c' : Canvas) (w w' : World)
    (framerate_ : Z) :
  framerate c = SP_STATIC → framerate_ ≠ SP_STATIC →
  setFramerate c w framerate_ = Done (c', w') →
  plotMap w' = plotMap w ∧
  dom (heap w') = dom (heap w) ∧
  Forall (λ plotID, ∃ s, plotMap w !! plotID = Some s ∧
                         heap w' !! data s = Some Freed) (plots c).
Proof using Type.
  intros Hrate Hrate_. rewrite setFramerate_leave by done.
  destruct (for_each deletePlotData w (plots c)) as [wd|f] eqn:Hdel;
    simpl; [|done].
  intros [= _ <-].
  apply for_each_deletePlotData in Hdel as (Hmap & Hdom & _ & Hall).
  split; [done|]. split; [done|]. by rewrite <- Hmap.
Qed.

(** ** Killing once *)

(** X14.  [kill] on the canvas that [kill] has left behind does nothing:
    the canvas is marked killed, so neither the bitmap nor the plot data is
    released a second time. *)
Theorem kill_twice (c c' : Canvas) (w w' : World) (g g' : Globals) :
  kill c w g = Done (c', w', g') →
  killed c' = true ∧ kill c' w' g' = Done (c', w', g').
Proof using Type.
  unfold kill at 1. destruct (killed c) eqn:Hk.
  - intros [= <- <- <-]. unfold kill. by rewrite Hk.
  - destruct (if decide (framerate c = SP_STATIC)
              then for_each deletePlotData w (plots c) else mret w)
      as [wd|f]; [|done]. simpl.
    intros [= <- <- <-]. done.
Qed.

(** ** The limits after a paint pass *)

Lemma for_each_app {S : Type} (body : S → PLOT_ID → mem S) (s : S)
    (ids ids' : list PLOT_ID) :
  for_each body s (ids ++ ids')
  = (s' ← for_each body s ids; for_each body s' ids').
Proof using Type.
  revert s. induction ids as [|plotID rest IH]; intros s; simpl; [done|].
  destruct (body s plotID) as [s1|f]; simpl; [apply IH|done].
Qed.

Lemma getPlotAxisLimits_length (w : World) (plotID : PLOT_ID)
    (buf lim : list Z) :
  getPlotAxisLimits w plotID buf = Done lim → length lim = length buf.
Proof using Type.
  unfold getPlotAxisLimits, Series_getAxisLimits.
  destruct (plotMap w !! plotID) as [s|]; [|done].
  destruct (load _ _ _) as [vals|f]; [|done]. simpl.
  intros [= <-]. by rewrite !length_insert.
Qed.

Lemma getPlotAxisLimits_buffer (w : World) (plotID : PLOT_ID)
    (buf buf' : list Z) :
  length buf = 4 → length buf' = 4 →
  getPlotAxisLimits w plotID buf = getPlotAxisLimits w plotID buf'.
Proof using Type.
  intros Hbuf Hbuf'. unfold getPlotAxisLimits, Series_getAxisLimits.
  destruct (plotMap w !! plotID) as [s|]; [|done].
  destruct (load _ _ _) as [vals|f]; [|done]. simpl.
  destruct buf as [|b0 [|b1 [|b2 [|b3 [|]]]]]; try done.
  destruct buf' as [|d0 [|d1 [|d2 [|d3 [|]]]]]; done.
Qed.

Lemma for_each_limits_length (w : World) (ids : list PLOT_ID)
    (buf lim : list Z) :
  for_each (λ lim plotID, getPlotAxisLimits w plotID lim) buf ids = Done lim →
  length lim = length buf.
Proof using Type.
  revert buf. induction ids as [|plotID rest IH]; intros buf; simpl.
  - by intros [= <-].
  - destruct (getPlotAxisLimits w plotID buf) as [buf1|f] eqn:Hone; [|done].
    simpl. intros Hrest. apply IH in Hrest.
    apply getPlotAxisLimits_length in Hone. congruence.
Qed.

(** X15.  After a paint pass on a canvas with allocated limits, the axis
    limits are exactly what the last member plot of the list reports on its
    own, whatever the plots before it report. *)
Theorem draw_limits_last (c c' : Canvas) (w : World) (size : POINT)
    (front : list PLOT_ID) (plotID : PLOT_ID) :
  length (axisLimits c) = 4 → plots c = front ++ [plotID] →
  draw c w size = Done c' →
  ∀ buf, length buf = 4 →
         getPlotAxisLimits w plotID buf = Done (axisLimits c').
Proof using Type.
  intros Hlen Hplots. unfold draw. rewrite Hplots.
  rewrite (for_each_app (λ lim p, getPlotAxisLimits w p lim)).
  destruct (for_each (λ lim p, getPlotAxisLimits w p lim) (axisLimits c) front)
    as [mid|f] eqn:Hfront; simpl; [|done].
  destruct (getPlotAxisLimits w plotID mid) as [lim|f] eqn:Hlast; simpl;
    [|done].
  destruct (for_each (λ _ p, drawPlot w p) tt (front ++ [plotID]))
    as [[]|f]; simpl; [|done].
  intros [= <-] buf Hbuf. simpl. rewrite <- Hlast.
  apply getPlotAxisLimits_buffer; [done|].
  apply for_each_limits_length in Hfront. congruence.
Qed.

(** ** From registration to termination *)

(** X16.  Once [initWindow] has registered a canvas, the render loop does
    not stop by itself; [deleteCanvas] for the canvas then returns, leaves
    the bitmap in place and the flags of the other windows as they were, and
    makes the next iteration of the loop stop; for a canvas that is not
    killed and not in static mode, that iteration releases the bitmap that
    [initWindow] made and marks the canvas killed.  Before the registration,
    [deleteCanvas] for a canvas that the table does not know throws. *)
Theorem deleteCanvas_after_initWindow (c : Canvas) (this_ : Z)
    (created : HWND) (bitmap : Z) (m : Maps) (g : Globals) :
  let '(c1, m1, g1) := initWindow c this_ created bitmap m g in
  (canvasHWNDMap m !! id c = None → deleteCanvas m g (id c) = None) ∧
  killNow c1 g1 = false ∧
  ∃ g2, deleteCanvas m1 g1 (id c) = Some g2 ∧
        killNow c1 g2 = true ∧
        bitmaps g2 = bitmaps g1 ∧ bitmap ∈ bitmaps g2 ∧
        (∀ h, h ≠ created →
              terminateCanvas g2 !! h = terminateCanvas g !! h) ∧
        (killed c = false → framerate c ≠ SP_STATIC →
         ∀ w size, ∃ g3,
           launch_step c1 w g2 size
             = Done (Break, (set_killed c1 true, w, g3)) ∧
           bitmap ∉ bitmaps g3).
Proof using Type.
  unfold initWindow, createBitmap. simpl. split.
  { intros Hnone. unfold deleteCanvas. by rewrite Hnone. }
  split.
  { unfold killNow. simpl. by rewrite lookup_insert_eq. }
  unfold deleteCanvas. simpl. rewrite lookup_insert_eq. simpl.
  rewrite lookup_insert_eq. simpl.
  eexists. split; [reflexivity|]. simpl. split.
  { unfold killNow. simpl. by rewrite lookup_insert_eq. }
  split; [done|]. split.
  { apply elem_of_union_l. by apply elem_of_singleton. }
  split.
  { intros h Hh. by rewrite !lookup_insert_ne. }
  intros Hk Hrate w size. unfold launch_step, killNow, kill. simpl.
  rewrite !lookup_insert_eq, Hk. simpl.
  destruct (decide (framerate c = SP_STATIC)) as [?|_]; [done|]. simpl.
  eexists. split; [reflexivity|]. simpl.
  rewrite elem_of_difference, elem_of_singleton.
  intros [_ Hne]. by apply Hne.
Qed.

End SimplePlot.

(** ** Concrete canvases *)

(** Every plot is a series ([PLOT_TYPE::SERIES], [AXIS_TYPE::CART_2D]). *)
Definition series_type : PLOT_ID → Z := λ _, 0%Z.
Definition series_axis : PLOT_ID → AXIS_TYPE := λ _, CART_2D.

(** A registry in which the plot type of plot [p] is [p] itself. *)
Definition graded_type : PLOT_ID → Z := λ p, p.

(** A registry in which plot [2] wants the special axes. *)
Definition mixed_axis : PLOT_ID → AXIS_TYPE :=
  λ p, if decide (p = 2%Z) then SPECIAL else CART_2D.

Definition zero_Axis : Axis := mkAxis false false 0 0 0 0 0.
Definition origin : POINT := mkPOINT 0 0.
Definition unit_ticks : bool → Z → Z → Z * Z := λ _ _ _, (1%Z, 1%Z).
Definition clearance_20 : Axis → Z := λ _, 20%Z.

(** A canvas with the given member plots and frame rate, its buffers
    allocated. *)
Definition canvas_of (l : list PLOT_ID) (framerate_ : Z) : Canvas :=
  mkCanvas 7 l (Some CART_2D) (replicate 4 0%Z) (replicate 4 origin)
           (replicate 2 zero_Axis) framerate_ 0 false.

(** One series over the caller's five samples at address [100]. *)
Definition caller_world : World :=
  mkWorld {[ 1%Z := mkSeries 1 100 5 ]}
          {[ 100 := Live [1; 3; 2; 5; 4]%Z ]}.

(** The same series in static mode: its data is the copy at address [101]. *)
Definition static_world : World :=
  mkWorld {[ 1%Z := mkSeries 1 101 5 ]}
          (<[ 101 := Live [1; 3; 2; 5; 4]%Z ]>
             {[ 100 := Live [1; 3; 2; 5; 4]%Z ]}).

(** A narrow series [1] and a wide series [2]. *)
Definition two_series_world : World :=
  mkWorld (<[ 2%Z := mkSeries 1 200 3 ]> {[ 1%Z := mkSeries 1 100 2 ]})
          (<[ 200 := Live [0; 10; 0]%Z ]> {[ 100 := Live [1; 2]%Z ]}).

(** The window [0] owns the bitmap [55] and is marked for termination. *)
Definition terminating : Globals :=
  mkGlobals {[ 0%Z := 55%Z ]} {[ 0%Z := true ]} {[ 55%Z ]}.

Definition window : POINT := mkPOINT 640 480.

Example run_example :
  plots <$> run graded_type series_axis 0 origin zero_Axis 3
                (canvas_of [5; 3]%Z 30) [AddPlot 5 7; RemovePlot 3]
  = [[5; 5; 3]; [5; 5]]%Z.
Proof. reflexivity. Qed.

Lemma run_sorted_witness :
  sorted_plots graded_type (plots (canvas_of [5; 3]%Z 30)) ∧
  Forall (λ c', sorted_plots graded_type (plots c'))
         (run graded_type series_axis 0 origin zero_Axis 3
              (canvas_of [5; 3]%Z 30) [AddPlot 5 7; RemovePlot 3]).
Proof.
  assert (sorted_plots graded_type (plots (canvas_of [5; 3]%Z 30))) as Hs.
  { repeat constructor. unfold graded_type. lia. }
  split; [exact Hs|]. apply run_sorted. exact Hs.
Defined.

(** A canvas cannot be made of a single plot with the special axes: the
    constructor throws. *)
Lemma Canvas_new_special_fails :
  Canvas_new series_type mixed_axis 0 origin zero_Axis 30
             1 (λ _, 0%Z) 0 [2%Z] = Some (LogicError AxisTypeUnimplemented).
Proof. reflexivity. Qed.

(** [addPlot] does not look at the axis type: plot [2], with the special
    axes, joins a canvas of Cartesian plots. *)
Example addPlot_ignores_axis_type :
  addPlot series_type mixed_axis 0 origin zero_Axis 1 0
          (canvas_of [1%Z] 30) 2
  = Some (canvas_of [2; 1]%Z 30, Ok tt).
Proof. reflexivity. Qed.

Lemma Canvas_new_axis_types_witness :
  (∃ p, p ∈ [2%Z] ∧ mixed_axis p ≠ mixed_axis 1) ∧
  1 ≤ 1 ∧
  Forall (λ p, series_type p = series_type 1) [2%Z] ∧
  mixed_axis 2 = SPECIAL ∧
  (∃ e, Canvas_new series_type mixed_axis 0 origin zero_Axis 30
                   1 (λ _, 0%Z) 0 [1; 2]%Z = Some (LogicError e)) ∧
  Canvas_new series_type mixed_axis 0 origin zero_Axis 30
             1 (λ _, 0%Z) 0 [2%Z] = Some (LogicError AxisTypeUnimplemented).
Proof.
  assert (∃ p, p ∈ [2%Z] ∧ mixed_axis p ≠ mixed_axis 1) as Hmis.
  { exists 2%Z. split; [apply list_elem_of_here|discriminate]. }
  assert (Forall (λ p, series_type p = series_type 1) [2%Z]) as Hty
    by (repeat constructor).
  split; [exact Hmis|]. split; [lia|]. split; [exact Hty|].
  split; [reflexivity|]. split.
  - destruct (Canvas_new_axis_types series_type mixed_axis 0 origin zero_Axis
                30 1 (λ _, 0%Z) 0 1 [2%Z]) as [Hfirst _].
    destruct (Hfirst Hmis) as [_ Hthrows]. apply Hthrows; [lia|exact Hty].
  - destruct (Canvas_new_axis_types series_type mixed_axis 0 origin zero_Axis
                30 1 (λ _, 0%Z) 0 2 []) as [_ Hspecial].
    apply Hspecial. reflexivity.
Defined.

Lemma removePlot_absent_witness :
  (3%Z ∉ plots (canvas_of [1; 2]%Z 30)) ∧
  removePlot (canvas_of [1; 2]%Z 30) 3 = canvas_of [1; 2]%Z 30.
Proof.
  assert (3%Z ∉ plots (canvas_of [1; 2]%Z 30)) as Hnot.
  { simpl. rewrite !not_elem_of_cons. repeat split; try discriminate.
    apply not_elem_of_nil. }
  split; [exact Hnot|]. apply removePlot_absent. exact Hnot.
Defined.

Lemma setEnds_idempotent_witness :
  (4 ≠ 3)%Z ∧
  ∃ ax2, setEnds unit_ticks (setEnds unit_ticks zero_Axis 0 3).1 0 4
           = (ax2, true) ∧
         recomputed ax2 = S (recomputed (setEnds unit_ticks zero_Axis 0 3).1) ∧
         (major ax2, minor ax2)
           = unit_ticks (logarithmic (setEnds unit_ticks zero_Axis 0 3).1) 0 4.
Proof.
  split; [discriminate|].
  destruct (setEnds_idempotent unit_ticks zero_Axis 0 3) as [_ Hchange].
  apply Hchange. discriminate.
Defined.

(** The canvas after a paint pass (the canvas itself if the pass faults) *)
Definition painted (c : Canvas) (w : World) : Canvas :=
  match draw 0 zero_Axis 5 unit_ticks clearance_20 c w window with
  | Done c' => c'
  | Fault _ => c
  end.

Lemma draw_limits_and_corners_witness :
  series_axis 1 = CART_2D ∧
  plotMap caller_world !! 1%Z = Some (mkSeries 1 100 5) ∧
  heap caller_world !! 100 = Some (Live [1; 3; 2; 5; 4]%Z) ∧
  (∃ c c', Canvas_new series_type series_axis 0 origin zero_Axis 30
                      1 (λ _, 0%Z) 0 [1%Z] = Some (Ok c) ∧
           draw 0 zero_Axis 5 unit_ticks clearance_20 c caller_world window
             = Done c' ∧
           axisLimits c' = [0; 4; 1; 5]%Z) ∧
  drawSpace (painted (canvas_of [1%Z] 30) caller_world)
    = drawSpace (painted (canvas_of [2; 1]%Z 30) two_series_world).
Proof.
  destruct (draw_limits_and_corners series_type series_axis 0 origin zero_Axis
              30 5 unit_ticks clearance_20) as [Hlimits Hcorners].
  split; [reflexivity|]. split; [reflexivity|]. split; [reflexivity|]. split.
  - apply Hlimits with (a := 100); reflexivity.
  - apply Hcorners with (w1 := caller_world) (w2 := two_series_world)
                        (size := window) (c1 := canvas_of [1%Z] 30)
                        (c2 := canvas_of [2; 1]%Z 30); reflexivity.
Defined.

(** In static mode the render loop releases the data of the member plot when
    it terminates: no block is allocated, and the plot is left without a live
    data block. *)
Lemma kill_static_no_copy :
  ∃ c' w' g',
    launch_step 0 zero_Axis (-1) 5 unit_ticks clearance_20
                (canvas_of [1%Z] (-1)) static_world terminating window
      = Done (Break, (c', w', g')) ∧
    dom (heap w') = dom (heap static_world) ∧
    ¬ ∃ s vals, plotMap w' !! 1%Z = Some s ∧
                heap w' !! data s = Some (Live vals).
Proof.
  eexists _, _, _. split; [reflexivity|]. split; [reflexivity|].
  intros (s & vals & Hs & Hlive). vm_compute in Hs. injection Hs as <-.
  vm_compute in Hlive. discriminate.
Qed.

Lemma launch_step_kill_witness :
  killNow (canvas_of [1%Z] (-1)) terminating = true ∧
  killed (canvas_of [1%Z] (-1)) = false ∧
  framerate (canvas_of [1%Z] (-1)) = (-1)%Z ∧
  for_each deletePlotData static_world (plots (canvas_of [1%Z] (-1)))
    = Done (mkWorld (plotMap static_world)
                    (<[101 := Freed]> (heap static_world))) ∧
  launch_step 0 zero_Axis (-1) 5 unit_ticks clearance_20
              (canvas_of [1%Z] (-1)) static_world terminating window
    = Done (Break,
            (set_killed (canvas_of [1%Z] (-1)) true,
             mkWorld (plotMap static_world)
                     (<[101 := Freed]> (heap static_world)),
             mkGlobals {[ 0%Z := 55%Z ]} {[ 0%Z := true ]} ∅)).
Proof.
  assert (for_each deletePlotData static_world (plots (canvas_of [1%Z] (-1)))
          = Done (mkWorld (plotMap static_world)
                          (<[101 := Freed]> (heap static_world)))) as Hdel
    by reflexivity.
  split; [reflexivity|]. split; [reflexivity|]. split; [reflexivity|].
  split; [exact Hdel|].
  destruct (launch_step_kill 0 zero_Axis (-1) 5 unit_ticks clearance_20
              (canvas_of [1%Z] (-1)) static_world terminating window)
    as (_ & _ & Hstatic & _); [reflexivity|].
  destruct (Hstatic eq_refl eq_refl _ Hdel) as [Hstep _].
  rewrite Hstep. reflexivity.
Defined.

(** C3.  On a canvas in non-static mode whose series plot shares the
    caller's buffer at address [100], [setFramerate(SP_STATIC)] followed by
    [setFramerate(30)] (with [-1] for [SP_STATIC]) leaves the plot pointing at the released private copy
    at address [101], not at the caller's buffer, and the next paint pass
    reads through that released block. *)
Theorem setFramerate_toggle_dangles :
  ∃ c1 w1 c2 w2,
    setFramerate (-1) (canvas_of [1%Z] 30) caller_world (-1) = Done (c1, w1) ∧
    setFramerate (-1) c1 w1 30 = Done (c2, w2) ∧
    plotMap w2 !! 1%Z = Some (mkSeries 1 101 5) ∧
    heap w2 !! 101 = Some Freed ∧
    heap w2 !! 100 = Some (Live [1; 3; 2; 5; 4]%Z) ∧
    draw 0 zero_Axis 5 unit_ticks clearance_20 c2 w2 window
      = Fault UseAfterFree.
Proof.
  eexists _, _, _, _. split; [reflexivity|]. split; [reflexivity|].
  repeat split; reflexivity.
Qed.

(** C4.  On the canvas made of the narrow series [1] and the wide series
    [2], the paint pass ends with the limits of the series it asked last:
    maxX = 1 and maxY = 2, although series [2] reaches x = 2 and y = 10. *)
Theorem draw_limits_of_last_plot :
  ∃ c c',
    Canvas_new series_type series_axis 0 origin zero_Axis 30
               1 (λ _, 0%Z) 0 [1; 2]%Z = Some (Ok c) ∧
    plots c = [2; 1]%Z ∧
    draw 0 zero_Axis 5 unit_ticks clearance_20 c two_series_world window
      = Done c' ∧
    axisLimits c' = [0; 1; 1; 2]%Z ∧
    getPlotAxisLimits two_series_world 2 (axisLimits c')
      = Done [0; 2; 0; 10]%Z.
Proof.
  eexists _, _. split; [reflexivity|]. repeat split; reflexivity.
Qed.

(** C7.  On the canvas whose only plot has plot type 2, [addPlot] of a plot
    of type 1 neither inserts nor throws when the read past the end yields a
    plot of type 0: the search does not terminate.  On the canvas with plots
    of types 2 and 1, [addPlot] of a plot of type 1 throws when the read
    past the end yields a plot of type 2, although the run of type 1 is
    there. *)
Theorem addPlot_neither_inserts_nor_throws :
  (∀ fuel, addPlot graded_type series_axis 0 origin zero_Axis fuel 0
                   (canvas_of [2%Z] 30) 1 = None) ∧
  (∀ fuel, addPlot graded_type series_axis 0 origin zero_Axis fuel 2
                   (canvas_of [2; 1]%Z 30) 1
           = Some (canvas_of [2; 1]%Z 30, LogicError BinaryInsertFailed)).
Proof.
  split; intros fuel.
  - apply addPlot_diverges with (p := 2%Z); [reflexivity|reflexivity|].
    discriminate.
  - unfold addPlot.
    destruct (decide (length (plots (canvas_of [2; 1]%Z 30)) = 0))
      as [Hlen|_]; [discriminate|].
    cbv zeta. change (deref 2%Z (plots (canvas_of [2; 1]%Z 30)) 0) with 2%Z.
    change (deref 2%Z (plots (canvas_of [2; 1]%Z 30))
                  (length (plots (canvas_of [2; 1]%Z 30)))) with 2%Z.
    rewrite search_exit. reflexivity.
Qed.

(** ** Instances of the further properties *)

(** A registry in which the plot type of plot [p] is [p / 10]. *)
Definition decade_type : PLOT_ID → Z := λ p, (p / 10)%Z.

Definition no_maps : Maps := mkMaps ∅ ∅ ∅.
Definition no_globals : Globals := mkGlobals ∅ ∅ ∅.

(** [static_world] after the copy at [101] was released *)
Definition released_world : World :=
  mkWorld (plotMap static_world) (<[101 := Freed]> (heap static_world)).

Lemma addPlot_throw_state_witness :
  addPlot graded_type series_axis 0 origin zero_Axis 1 2
          (canvas_of [2; 1]%Z 30) 1
    = Some (canvas_of [2; 1]%Z 30, LogicError BinaryInsertFailed) ∧
  ((plots (canvas_of [2; 1]%Z 30) ≠ [] ∧
    canvas_of [2; 1]%Z 30 = canvas_of [2; 1]%Z 30 ∧
    BinaryInsertFailed = BinaryInsertFailed)
   ∨ (plots (canvas_of [2; 1]%Z 30) = [] ∧
      plots (canvas_of [2; 1]%Z 30) = [1%Z] ∧
      BinaryInsertFailed = AxisTypeUnimplemented ∧
      series_axis 1 ≠ CART_2D)).
Proof.
  split; [reflexivity|].
  apply (addPlot_throw_state graded_type series_axis 0 origin zero_Axis 1 2).
  reflexivity.
Defined.

Lemma addPlot_Ok_member_witness :
  addPlot decade_type series_axis 0 origin zero_Axis 3 70
          (canvas_of [51; 30]%Z 30) 52
    = Some (canvas_of [52; 51; 30]%Z 30, Ok tt) ∧
  plots (canvas_of [52; 51; 30]%Z 30)
    ≡ₚ 52%Z :: plots (canvas_of [51; 30]%Z 30) ∧
  (plots (canvas_of [51; 30]%Z 30) ≠ [] →
   ∃ y, y ∈ plots (canvas_of [51; 30]%Z 30) ∧
        decade_type y = decade_type 52) ∧
  (plots (canvas_of [51; 30]%Z 30) = [] → series_axis 52 = CART_2D).
Proof.
  split; [reflexivity|].
  apply (addPlot_Ok_member decade_type series_axis 0 origin zero_Axis 3 70).
  reflexivity.
Defined.

Lemma run_one_plot_type_witness :
  one_plot_type decade_type (plots (canvas_of [51]%Z 30)) ∧
  Forall (λ c', one_plot_type decade_type (plots c'))
         (run decade_type series_axis 0 origin zero_Axis 3
              (canvas_of [51]%Z 30)
              [AddPlot 52 70; AddPlot 30 70; RemovePlot 51]).
Proof.
  assert (one_plot_type decade_type (plots (canvas_of [51]%Z 30))) as Hone.
  { exists 5%Z. repeat constructor. }
  split; [exact Hone|]. apply run_one_plot_type. exact Hone.
Defined.

Lemma addPlot_removePlot_witness :
  (52%Z ∉ plots (canvas_of [51; 30]%Z 30)) ∧
  addPlot decade_type series_axis 0 origin zero_Axis 3 70
          (canvas_of [51; 30]%Z 30) 52
    = Some (canvas_of [52; 51; 30]%Z 30, Ok tt) ∧
  plots (removePlot (canvas_of [52; 51; 30]%Z 30) 52)
    = plots (canvas_of [51; 30]%Z 30).
Proof.
  assert (52%Z ∉ plots (canvas_of [51; 30]%Z 30)) as Hnot.
  { simpl. rewrite !not_elem_of_cons. repeat split; try discriminate.
    apply not_elem_of_nil. }
  split; [exact Hnot|]. split; [reflexivity|].
  apply (addPlot_removePlot decade_type series_axis 0 origin zero_Axis 3 70
           _ _ _ (Ok tt) Hnot).
  reflexivity.
Defined.

Lemma removePlot_present_witness :
  (1%Z ∈ plots (canvas_of [2; 1]%Z 30)) ∧
  NoDup (plots (canvas_of [2; 1]%Z 30)) ∧
  plots (canvas_of [2; 1]%Z 30)
    ≡ₚ 1%Z :: plots (removePlot (canvas_of [2; 1]%Z 30) 1) ∧
  (1%Z ∉ plots (removePlot (canvas_of [2; 1]%Z 30) 1)).
Proof.
  assert (1%Z ∈ plots (canvas_of [2; 1]%Z 30)) as Hin.
  { simpl. apply list_elem_of_further, list_elem_of_here. }
  assert (NoDup (plots (canvas_of [2; 1]%Z 30))) as Hnodup.
  { simpl. apply NoDup_cons. split.
    - rewrite !not_elem_of_cons. split; [discriminate|apply not_elem_of_nil].
    - apply NoDup_singleton. }
  destruct (removePlot_present (canvas_of [2; 1]%Z 30) 1 Hin) as [Hperm Hgone].
  split; [exact Hin|]. split; [exact Hnodup|]. split; [exact Hperm|].
  exact (Hgone Hnodup).
Defined.

Lemma Canvas_new_Ok_witness :
  [1; 2]%Z ≠ [] ∧
  Canvas_new series_type series_axis 0 origin zero_Axis 30
             1 (λ _, 0%Z) 0 [1; 2]%Z
    = Some (Ok (mkCanvas 0 [2; 1]%Z (Some CART_2D) (replicate 4 0%Z)
                         (replicate 4 origin) (replicate 2 zero_Axis)
                         30 0 false)) ∧
  Forall (λ p, series_axis p = CART_2D) [1; 2]%Z ∧
  [2; 1]%Z ≡ₚ [1; 2]%Z.
Proof.
  assert ([1; 2]%Z ≠ ([] : list Z)) as Hne by discriminate.
  split; [exact Hne|]. split; [reflexivity|].
  destruct (Canvas_new_Ok series_type series_axis 0 origin zero_Axis 30
              1 (λ _, 0%Z) 0 [1; 2]%Z
              (mkCanvas 0 [2; 1]%Z (Some CART_2D) (replicate 4 0%Z)
                        (replicate 4 origin) (replicate 2 zero_Axis)
                        30 0 false) Hne eq_refl)
    as (_ & Hall & Hperm & _).
  split; [exact Hall|exact Hperm].
Defined.

Lemma Canvas_new_rev_witness :
  1 ≤ 1 ∧
  Forall (λ p, series_axis p = CART_2D) [1; 2; 3]%Z ∧
  Forall (λ p, series_type p = 0%Z) [1; 2; 3]%Z ∧
  ∃ c, Canvas_new series_type series_axis 0 origin zero_Axis 30
                  1 (λ _, 9%Z) 0 [1; 2; 3]%Z = Some (Ok c) ∧
       plots c = rev [1; 2; 3]%Z.
Proof.
  assert (Forall (λ p, series_axis p = CART_2D) [1; 2; 3]%Z) as Haxes
    by (repeat constructor).
  assert (Forall (λ p, series_type p = 0%Z) [1; 2; 3]%Z) as Htypes
    by (repeat constructor).
  split; [lia|]. split; [exact Haxes|]. split; [exact Htypes|].
  apply Canvas_new_rev with (t := 0%Z); [lia|exact Haxes|exact Htypes].
Defined.

Lemma addPlot_fuel_witness :
  length (plots (canvas_of [51; 30]%Z 30)) < 3 ∧
  length (plots (canvas_of [51; 30]%Z 30)) < 9 ∧
  addPlot decade_type series_axis 0 origin zero_Axis 3 70
          (canvas_of [51; 30]%Z 30) 52
  = addPlot decade_type series_axis 0 origin zero_Axis 9 70
            (canvas_of [51; 30]%Z 30) 52.
Proof.
  split; [simpl; lia|]. split; [simpl; lia|].
  apply addPlot_fuel; simpl; lia.
Defined.

Lemma isolatePlotData_limits_witness :
  for_each isolatePlotData caller_world [1%Z] = Done static_world ∧
  getPlotAxisLimits caller_world 1 (replicate 4 0%Z) = Done [0; 4; 1; 5]%Z ∧
  (1%Z ∈ [1%Z]) ∧
  (∀ a, a ∉ dom (heap caller_world) →
        <[100 := Freed]> (heap static_world) !! a = heap static_world !! a) ∧
  getPlotAxisLimits static_world 1 (replicate 4 0%Z) = Done [0; 4; 1; 5]%Z ∧
  getPlotAxisLimits
    (mkWorld (plotMap static_world) (<[100 := Freed]> (heap static_world)))
    1 (replicate 4 0%Z) = Done [0; 4; 1; 5]%Z.
Proof.
  assert (∀ a, a ∉ dom (heap caller_world) →
            <[100 := Freed]> (heap static_world) !! a
            = heap static_world !! a) as Hrest.
  { intros a Ha. apply lookup_insert_ne. intros <-. apply Ha.
    apply elem_of_dom. by eexists. }
  destruct (isolatePlotData_limits [1%Z] caller_world static_world 1
              (replicate 4 0%Z) [0; 4; 1; 5]%Z eq_refl eq_refl)
    as [Hsame Hstable].
  split; [reflexivity|]. split; [reflexivity|].
  split; [apply list_elem_of_here|]. split; [exact Hrest|].
  split; [exact Hsame|].
  apply Hstable; [apply list_elem_of_here|exact Hrest].
Defined.

Lemma setFramerate_static_keeps_blocks_witness :
  framerate (canvas_of [1%Z] 30) ≠ (-1)%Z ∧
  setFramerate (-1) (canvas_of [1%Z] 30) caller_world (-1)
    = Done (canvas_of [1%Z] (-1), static_world) ∧
  setFramerate (-1) (canvas_of [1%Z] (-1)) static_world 30
    = Done (canvas_of [1%Z] 30, released_world) ∧
  (100 ∈ dom (heap caller_world)) ∧
  heap released_world !! 100 = heap caller_world !! 100.
Proof.
  assert (framerate (canvas_of [1%Z] 30) ≠ (-1)%Z) as Hrate by discriminate.
  assert (100 ∈ dom (heap caller_world)) as Hdom.
  { apply elem_of_dom. by eexists. }
  split; [exact Hrate|]. split; [reflexivity|]. split; [reflexivity|].
  split; [exact Hdom|].
  apply (setFramerate_static_keeps_blocks (-1) (canvas_of [1%Z] 30)
           (canvas_of [1%Z] (-1)) (canvas_of [1%Z] 30)
           caller_world static_world released_world 30 Hrate eq_refl eq_refl).
  exact Hdom.
Defined.

Lemma setFramerate_toggle_use_after_free_witness :
  framerate (canvas_of [1%Z] 30) ≠ (-1)%Z ∧
  (30 ≠ -1)%Z ∧
  plots (canvas_of [1%Z] 30) ≠ [] ∧
  setFramerate (-1) (canvas_of [1%Z] 30) caller_world (-1)
    = Done (canvas_of [1%Z] (-1), static_world) ∧
  setFramerate (-1) (canvas_of [1%Z] (-1)) static_world 30
    = Done (canvas_of [1%Z] 30, released_world) ∧
  draw 0 zero_Axis 5 unit_ticks clearance_20 (canvas_of [1%Z] 30)
       released_world window = Fault UseAfterFree.
Proof.
  assert (framerate (canvas_of [1%Z] 30) ≠ (-1)%Z) as Hrate by discriminate.
  assert ((30 ≠ -1)%Z) as Hrate_ by discriminate.
  assert (plots (canvas_of [1%Z] 30) ≠ []) as Hne by discriminate.
  split; [exact Hrate|]. split; [exact Hrate_|]. split; [exact Hne|].
  split; [reflexivity|]. split; [reflexivity|].
  apply (setFramerate_toggle_use_after_free 0 zero_Axis (-1) 5 unit_ticks
           clearance_20 (canvas_of [1%Z] 30) (canvas_of [1%Z] (-1))
           (canvas_of [1%Z] 30) caller_world static_world released_world
           30 window Hrate Hrate_ Hne eq_refl eq_refl).
Defined.

Lemma setFramerate_repeat_witness :
  setFramerate (-1) (canvas_of [1%Z] 30) caller_world (-1)
    = Done (canvas_of [1%Z] (-1), static_world) ∧
  setFramerate (-1) (canvas_of [1%Z] (-1)) static_world (-1)
    = Done (canvas_of [1%Z] (-1), static_world).
Proof.
  split; [reflexivity|].
  apply (setFramerate_repeat (-1) (canvas_of [1%Z] 30)
           (canvas_of [1%Z] (-1)) caller_world static_world (-1)).
  reflexivity.
Defined.

Lemma setFramerate_leave_releases_witness :
  framerate (canvas_of [1%Z] (-1)) = (-1)%Z ∧
  (30 ≠ -1)%Z ∧
  setFramerate (-1) (canvas_of [1%Z] (-1)) caller_world 30
    = Done (canvas_of [1%Z] 30,
            mkWorld (plotMap caller_world)
                    (<[100 := Freed]> (heap caller_world))) ∧
  Forall (λ plotID, ∃ s, plotMap caller_world !! plotID = Some s ∧
                         <[100 := Freed]> (heap caller_world) !! data s
                         = Some Freed)
         (plots (canvas_of [1%Z] (-1))).
Proof.
  assert ((30 ≠ -1)%Z) as Hrate_ by discriminate.
  split; [reflexivity|]. split; [exact Hrate_|]. split; [reflexivity|].
  destruct (setFramerate_leave_releases (-1) (canvas_of [1%Z] (-1))
              (canvas_of [1%Z] 30) caller_world
              (mkWorld (plotMap caller_world)
                       (<[100 := Freed]> (heap caller_world)))
              30 eq_refl Hrate_ eq_refl) as (_ & _ & Hall).
  exact Hall.
Defined.

Lemma kill_twice_witness :
  kill (-1) (canvas_of [1%Z] (-1)) static_world terminating
    = Done (set_killed (canvas_of [1%Z] (-1)) true, released_world,
            mkGlobals {[ 0%Z := 55%Z ]} {[ 0%Z := true ]} ∅) ∧
  kill (-1) (set_killed (canvas_of [1%Z] (-1)) true) released_world
       (mkGlobals {[ 0%Z := 55%Z ]} {[ 0%Z := true ]} ∅)
    = Done (set_killed (canvas_of [1%Z] (-1)) true, released_world,
            mkGlobals {[ 0%Z := 55%Z ]} {[ 0%Z := true ]} ∅).
Proof.
  split; [reflexivity|].
  destruct (kill_twice (-1) (canvas_of [1%Z] (-1))
              (set_killed (canvas_of [1%Z] (-1)) true)
              static_world released_world terminating
              (mkGlobals {[ 0%Z := 55%Z ]} {[ 0%Z := true ]} ∅) eq_refl)
    as [_ Hagain].
  exact Hagain.
Defined.

Lemma draw_limits_last_witness :
  length (axisLimits (canvas_of [2; 1]%Z 30)) = 4 ∧
  plots (canvas_of [2; 1]%Z 30) = [2%Z] ++ [1%Z] ∧
  draw 0 zero_Axis 5 unit_ticks clearance_20 (canvas_of [2; 1]%Z 30)
       two_series_world window
    = Done (painted (canvas_of [2; 1]%Z 30) two_series_world) ∧
  length (replicate 4 7%Z) = 4 ∧
  getPlotAxisLimits two_series_world 1 (replicate 4 7%Z)
    = Done (axisLimits (painted (canvas_of [2; 1]%Z 30) two_series_world)).
Proof.
  split; [reflexivity|]. split; [reflexivity|]. split; [reflexivity|].
  split; [reflexivity|].
  apply (draw_limits_last 0 zero_Axis 5 unit_ticks clearance_20
           (canvas_of [2; 1]%Z 30)
           (painted (canvas_of [2; 1]%Z 30) two_series_world)
           two_series_world window [2%Z] 1); reflexivity.
Defined.

Lemma deleteCanvas_after_initWindow_witness :
  canvasHWNDMap no_maps !! id (canvas_of [1%Z] 30) = None ∧
  killed (canvas_of [1%Z] 30) = false ∧
  framerate (canvas_of [1%Z] 30) ≠ (-1)%Z ∧
  deleteCanvas no_maps no_globals (id (canvas_of [1%Z] 30)) = None ∧
  ∃ g2 g3,
    deleteCanvas
      (initWindow (canvas_of [1%Z] 30) 1000 8 55 no_maps no_globals).1.2
      (initWindow (canvas_of [1%Z] 30) 1000 8 55 no_maps no_globals).2
      (id (canvas_of [1%Z] 30)) = Some g2 ∧
    launch_step 0 zero_Axis (-1) 5 unit_ticks clearance_20
      (initWindow (canvas_of [1%Z] 30) 1000 8 55 no_maps no_globals).1.1
      caller_world g2 window
      = Done (Break,
              (set_killed
                 (initWindow (canvas_of [1%Z] 30) 1000 8 55
                             no_maps no_globals).1.1 true,
               caller_world, g3)) ∧
    (55%Z ∉ bitmaps g3).
Proof.
  assert (framerate (canvas_of [1%Z] 30) ≠ (-1)%Z) as Hrate by discriminate.
  pose proof (deleteCanvas_after_initWindow 0 zero_Axis (-1) 5 unit_ticks
                clearance_20 (canvas_of [1%Z] 30) 1000 8 55
                no_maps no_globals) as Hlife.
  cbv [initWindow] in Hlife. cbv beta iota zeta in Hlife.
  destruct Hlife as (Hthrow & _ & g2 & Hdel & _ & _ & _ & _ & Hstep).
  destruct (Hstep eq_refl Hrate caller_world window) as (g3 & Hlaunch & Hgone).
  split; [reflexivity|]. split; [reflexivity|]. split; [exact Hrate|].
  split; [exact (Hthrow eq_refl)|].
  exists g2, g3. split; [exact Hdel|]. split; [exact Hlaunch|exact Hgone].
Defined.
